(** * Vibello: the upload page's job orchestration

    A shallow embedding of [frontend/src/lib/api.js] and of the state and
    handlers of [frontend/src/pages/UploadPage.jsx] (the version with render
    polling), followed by the properties of the staging set, the upload, the
    render poll loop and the preview-URL bookkeeping.

    The component is event driven and single threaded: a handler runs to its
    first [await], and the rest of it runs when the awaited request settles.
    Each handler is therefore split at its [await] into two functions on a
    [World], which holds the React state, the [pollRef] ref, the browser's
    object-URL store and interval timers, and the requests in flight. *)

From stdpp Require Import gmap strings list pretty.

Open Scope string_scope.
Open Scope list_scope.

(** ** JavaScript values, as far as the page looks at them *)

Module Js.

#[local] Set Warnings "-register-all".

(** Parsed JSON plus [undefined]. [Num z] is the number an integer numeral
    [z] parses to, that is the double nearest to [z]: the page meets numbers
    as byte sizes, timestamps, HTTP status codes and percentages. [Frac d] is
    a number that is not an integer, given by the numeral ToString prints for
    it ([12.5], [1e-7]); the page never computes with a number, it tests,
    stores and prints them. An object is the list of its own properties in
    insertion order; none of them is callable, since JSON has no functions. *)
Inductive value : Type :=
  | Undefined
  | Null
  | Bool (b : bool)
  | Num (z : Z)
  | Frac (d : string)
  | Str (s : string)
  | Arr (l : list value)
  | Obj (l : list (string * value)).

(** ToBoolean *)
Definition truthy (v : value) : bool :=
  match v with
  | Undefined | Null => false
  | Bool b => b
  | Num z => negb (z =? 0)%Z
  | Frac _ => true
  | Str s => negb (String.eqb s "")
  | Arr _ | Obj _ => true
  end.

(** The double nearest to an integer, ties to even: 53 significant bits. *)
Definition round_double (z : Z) : Z :=
  let a := Z.abs z in
  let e := (Z.log2 a - 52)%Z in
  if (e <=? 0)%Z then z
  else
    let q := Z.shiftr a e in
    let r := Z.land a (Z.ones e) in
    let half := Z.shiftl 1 (e - 1) in
    let q' := if (r <? half)%Z then q
              else if (half <? r)%Z then (q + 1)%Z
              else if Z.even q then q else (q + 1)%Z in
    (Z.sgn z * Z.shiftl q' e)%Z.

(** Number::toString, step 5: the digits [s] and the position [n] of the
    decimal point of the shortest numeral [s * 10^(n-k)], [k] digits long,
    that reads back as the double [x]; of two such numerals the nearer to
    [x], and the even one on a tie. Seventeen digits always suffice. *)
Fixpoint shortest (fuel : nat) (k n x : Z) : Z * Z :=
  match fuel with
  | O => (x, n)
  | S fuel =>
      let scale := (10 ^ (n - k))%Z in
      let lo := (x / scale)%Z in
      let hi := (lo + 1)%Z in
      let up := if (hi =? 10 ^ k)%Z then (1, n + 1)%Z else (hi, n) in
      let lo_ok := (round_double (lo * scale) =? x)%Z in
      let hi_ok := (round_double (hi * scale) =? x)%Z in
      if lo_ok && hi_ok then
        let below := (x - lo * scale)%Z in
        let above := (hi * scale - x)%Z in
        if (below <? above)%Z then (lo, n)
        else if (above <? below)%Z then up
        else if Z.even lo then (lo, n) else up
      else if lo_ok then (lo, n)
      else if hi_ok then up
      else shortest fuel (k + 1)%Z n x
  end.

(** The digits followed by zeros, for a double from 2^53 up to 10^21. *)
Definition padded_form (x : Z) : string :=
  let n := Z.of_nat (String.length (pretty x)) in
  let '(s, n') := shortest 17 1 n x in
  pretty s
  +:+ String.concat "" (replicate (Z.to_nat n' - String.length (pretty s)) "0").

(** [d.ddde+n], for a double from 10^21 on. *)
Definition exponent_form (x : Z) : string :=
  let n := Z.of_nat (String.length (pretty x)) in
  let '(s, n') := shortest 17 1 n x in
  match pretty s with
  | String d rest =>
      String d (if String.eqb rest "" then "" else "." +:+ rest)
      +:+ "e+" +:+ pretty (n' - 1)%Z
  | EmptyString => ""
  end.

(** Number::toString of the number an integer numeral parses to: the
    decimal numeral itself up to 2^53, and [Infinity] from 2^1024 on. *)
Definition number_to_string (z : Z) : string :=
  let x := round_double z in
  let a := Z.abs x in
  if (a <? 2 ^ 53)%Z then pretty x
  else
    (if (x <? 0)%Z then "-" else "")
    +:+ (if (a <? 10 ^ 21)%Z then padded_form a
         else if (a <? 2 ^ 1024)%Z then exponent_form a
         else "Infinity").

(** The text ToString gives, where it completes ([prints] below says where,
    [ToString] is the conversion itself). Arrays join their elements with a
    comma, [null] and [undefined] elements giving the empty string; an object
    prints through [Object.prototype.toString] as [[object Object]]. *)
Fixpoint to_string (v : value) : string :=
  match v with
  | Undefined => "undefined"
  | Null => "null"
  | Bool true => "true"
  | Bool false => "false"
  | Num z => number_to_string z
  | Frac d => d
  | Str s => s
  | Arr l =>
      (fix join (l : list value) : string :=
         match l with
         | [] => ""
         | x :: rest =>
             let sx := match x with Undefined | Null => "" | _ => to_string x end in
             match rest with
             | [] => sx
             | _ :: _ => sx +:+ "," +:+ join rest
             end
         end) l
  | Obj _ => "[object Object]"
  end.

Fixpoint own (k : string) (l : list (string * value)) : value :=
  match l with
  | [] => Undefined
  | (k', v) :: rest => if String.eqb k k' then v else own k rest
  end.

(** [Object.hasOwn(o, k)] *)
Definition has_own (k : string) (l : list (string * value)) : bool :=
  existsb (fun kv => String.eqb k (fst kv)) l.

(** Whether ToString completes. An object with an own [toString] property
    hides [Object.prototype.toString] behind a value that cannot be called,
    and [valueOf] hands back the object itself (or is hidden as well), so
    the conversion ends in a TypeError; an array throws when printing an
    element does. *)
Fixpoint prints (v : value) : bool :=
  match v with
  | Undefined | Null | Bool _ | Num _ | Frac _ | Str _ => true
  | Arr l =>
      (fix all (l : list value) : bool :=
         match l with
         | [] => true
         | x :: rest => prints x && all rest
         end) l
  | Obj l => negb (has_own "toString" l)
  end.

(** ToString, as used by template literals and by [new Error(message)]:
    [None] is the TypeError. *)
Definition ToString (v : value) : option string :=
  if prints v then Some (to_string v) else None.

(** [v.k] for the property names the page reads ([detail], [job_id],
    [render_id], [status], [progress], [download_url], [error]), none of
    which lives on a prototype: [None] is the TypeError thrown on [null] and
    [undefined]. *)
Definition get (v : value) (k : string) : option value :=
  match v with
  | Undefined | Null => None
  | Obj l => Some (own k l)
  | Bool _ | Num _ | Frac _ | Str _ | Arr _ => Some Undefined
  end.

(** [v?.k] *)
Definition get_opt (v : value) (k : string) : value :=
  match get v k with
  | Some x => x
  | None => Undefined
  end.

(** [a || b] *)
Definition or_else (a b : value) : value := if truthy a then a else b.

(** [a ?? b] *)
Definition nullish (a b : value) : value :=
  match a with
  | Undefined | Null => b
  | _ => a
  end.

(** [v === 'lit'] *)
Definition is_str (v : value) (lit : string) : bool :=
  match v with
  | Str s => String.eqb s lit
  | _ => false
  end.

(** [msg || fallback] on strings *)
Definition str_or (msg fallback : string) : string :=
  if String.eqb msg "" then fallback else msg.

End Js.

(** ** lib/api.js *)

(** What an [await] hands back: the value of a fulfilled promise, or the
    [message] of the [Error] a rejected one carries. *)
Inductive Settled : Type :=
  | Fulfilled (v : Js.value)
  | Rejected (message : string).

(** What the network gives a [fetch]: it rejects (the engine words the
    message), or answers with a status and a body that [res.json()] parses or
    rejects with a SyntaxError. *)
Inductive Body : Type :=
  | Json (v : Js.value)
  | NotJson (syntax_error : string).

Inductive Http : Type :=
  | NetworkError (message : string)
  | Response (status : Z) (body : Body).

Module Api.

Section WithEnv.

(** [import.meta.env.VITE_API_URL], [None] when the variable is not set. *)
Variable VITE_API_URL : option string.

Definition API_URL : string :=
  match VITE_API_URL with
  | Some s => Js.str_or s "http://localhost:8000"
  | None => "http://localhost:8000"
  end.

End WithEnv.

(** [res.ok] and [xhr.status >= 200 && xhr.status < 300] *)
Definition ok (status : Z) : bool := (200 <=? status)%Z && (status <? 300)%Z.

(** [pingHealth]: [None] when the [fetch] rejects; [false] unless [res.ok];
    otherwise [data?.status === 'ok'], a body that is not JSON counting as
    [{}]. *)
Definition pingHealth (res : Http) : option bool :=
  match res with
  | NetworkError _ => None
  | Response status body =>
      if ok status then
        match body with
        | Json data => Some (Js.is_str (Js.get_opt data "status") "ok")
        | NotJson _ => Some false
        end
      else Some false
  end.

(** [xhr.onload] of [uploadFiles]: [response] is [xhr.response] under
    [responseType = 'json'], that is [null] when the body is not JSON.
    [xhr.status] is an unsigned 16-bit number and prints in decimal.
    [new Error(message)] converts [message] to a string; when that throws,
    the handler ends before [reject] is called and nothing else settles the
    promise: [None] is the promise left pending for good. *)
Definition uploadFiles_onload (status : Z) (response : Js.value) : option Settled :=
  if ok status then Some (Fulfilled response)
  else
    let message :=
      Js.or_else (Js.get_opt response "detail")
                 (Js.Str ("Upload failed (" +:+ pretty status +:+ ")")) in
    match Js.ToString message with
    | Some text => Some (Rejected text)
    | None => None
    end.

(** [xhr.onerror] of [uploadFiles] *)
Definition uploadFiles_onerror : Settled :=
  Rejected "Network error during upload.".

(** The common shape of [getJob], [startRender] and [fetchRenderStatus]:
    [await fetch], throw [not_ok] unless [res.ok], return [res.json()]. *)
Definition fetch_json (not_ok : string) (res : Http) : Settled :=
  match res with
  | NetworkError m => Rejected m
  | Response status body =>
      if ok status then
        match body with
        | Json v => Fulfilled v
        | NotJson m => Rejected m
        end
      else Rejected not_ok
  end.

Definition startRender : Http -> Settled := fetch_json "Render start failed".

Definition fetchRenderStatus : Http -> Settled :=
  fetch_json "Render status not found".

End Api.

(** ** pages/UploadPage.jsx: data *)

Set Primitive Projections.

(** A [File] of the browser: its metadata, and [blob] standing for the
    content, so that two files can agree on all metadata and still differ.
    [size] is a byte count and [lastModified] a time in milliseconds: whole
    numbers far below 2^53, which print as their decimal numerals. *)
Record File : Type := {
  name : string;
  size : Z;
  lastModified : Z;
  blob : nat;
}.

(** What [URL.createObjectURL] returns: the n-th URL the store handed out. *)
Definition ObjectUrl : Type := nat.

(** An entry of [files]: [{file, previewUrl, id}]. *)
Record StagedFile : Type := {
  file : File;
  previewUrl : ObjectUrl;
  id : string;
}.

(** [`${file.name}-${file.size}-${file.lastModified}`] *)
Definition file_id (f : File) : string :=
  name f +:+ "-" +:+ pretty (size f) +:+ "-" +:+ pretty (lastModified f).

(** The [useState] cells of the component. *)
Record State : Type := {
  files : list StagedFile;
  apiOnline : option bool;
  isUploading : bool;
  uploadPct : Z;
  uploadError : string;
  job : Js.value;
  renderId : Js.value;
  renderStatus : Js.value;
  renderPct : Js.value;
  renderErr : Js.value;
  downloadUrl : string;
}.

(** An interval timer: its period in milliseconds and the render id its
    callback closes over ([r.render_id]). *)
Record Interval : Type := {
  period : Z;
  target : Js.value;
}.

(** The browser: the object-URL store (how many URLs were created, and the
    log of [revokeObjectURL] calls, latest first) and the live timers. Timer
    ids are positive, hence truthy. *)
Record Browser : Type := {
  url_next : nat;
  url_revoked : list ObjectUrl;
  timers : gmap positive Interval;
  timer_next : positive;
}.

(** Requests sent and not yet settled: the health ping, the XHR uploads, the
    job ids of the [POST /api/render] calls and the render ids of the status
    fetches, each in the order sent; and the [files] field of every upload
    form that went out, in the order sent. *)
Record Net : Type := {
  health_inflight : bool;
  upload_inflight : nat;
  upload_forms : list (list File);
  start_inflight : list Js.value;
  poll_inflight : list Js.value;
}.

Record World : Type := {
  ui : State;
  pollRef : option positive;
  browser : Browser;
  net : Net;
  mounted : bool;
}.

Definition initial_state : State :=
  {| files := []; apiOnline := None; isUploading := false; uploadPct := 0;
     uploadError := "";
     job := Js.Null; renderId := Js.Null; renderStatus := Js.Null;
     renderPct := Js.Num 0; renderErr := Js.Str ""; downloadUrl := "" |}.

Definition init : World :=
  {| ui := initial_state;
     pollRef := None;
     browser := {| url_next := 0; url_revoked := []; timers := ∅; timer_next := 1 |};
     net := {| health_inflight := true; upload_inflight := 0; upload_forms := [];
               start_inflight := []; poll_inflight := [] |};
     mounted := true |}.

(** ** Actions: one step of a handler each *)

Definition Action : Type := World -> World.

(** [a >>> b]: do [a], then [b]. *)
Definition andThen (a b : Action) : Action := fun w => b (a w).
Infix ">>>" := andThen (at level 61, left associativity).

Definition skip : Action := fun w => w.

Definition when (c : bool) (a : Action) : Action := if c then a else skip.

Definition with_ui (f : State -> State) : Action := fun w =>
  {| ui := f (ui w); pollRef := pollRef w; browser := browser w; net := net w;
     mounted := mounted w |}.

Definition with_browser (f : Browser -> Browser) : Action := fun w =>
  {| ui := ui w; pollRef := pollRef w; browser := f (browser w); net := net w;
     mounted := mounted w |}.

Definition with_net (f : Net -> Net) : Action := fun w =>
  {| ui := ui w; pollRef := pollRef w; browser := browser w; net := f (net w);
     mounted := mounted w |}.

Definition set_pollRef (r : option positive) : Action := fun w =>
  {| ui := ui w; pollRef := r; browser := browser w; net := net w;
     mounted := mounted w |}.

Definition set_mounted (b : bool) : Action := fun w =>
  {| ui := ui w; pollRef := pollRef w; browser := browser w; net := net w;
     mounted := b |}.

(** The state setters. *)
Definition setApiOnline (v : bool) : Action := with_ui (fun s =>
  {| files := files s; apiOnline := Some v; isUploading := isUploading s;
     uploadPct := uploadPct s; uploadError := uploadError s; job := job s;
     renderId := renderId s; renderStatus := renderStatus s;
     renderPct := renderPct s; renderErr := renderErr s;
     downloadUrl := downloadUrl s |}).

Definition setIsUploading (v : bool) : Action := with_ui (fun s =>
  {| files := files s; apiOnline := apiOnline s; isUploading := v;
     uploadPct := uploadPct s; uploadError := uploadError s; job := job s;
     renderId := renderId s; renderStatus := renderStatus s;
     renderPct := renderPct s; renderErr := renderErr s;
     downloadUrl := downloadUrl s |}).

Definition setUploadPct (v : Z) : Action := with_ui (fun s =>
  {| files := files s; apiOnline := apiOnline s;
     isUploading := isUploading s; uploadPct := v;
     uploadError := uploadError s; job := job s; renderId := renderId s;
     renderStatus := renderStatus s; renderPct := renderPct s;
     renderErr := renderErr s; downloadUrl := downloadUrl s |}).

Definition setUploadError (v : string) : Action := with_ui (fun s =>
  {| files := files s; apiOnline := apiOnline s;
     isUploading := isUploading s; uploadPct := uploadPct s;
     uploadError := v; job := job s; renderId := renderId s;
     renderStatus := renderStatus s; renderPct := renderPct s;
     renderErr := renderErr s; downloadUrl := downloadUrl s |}).

Definition setJob (v : Js.value) : Action := with_ui (fun s =>
  {| files := files s; apiOnline := apiOnline s;
     isUploading := isUploading s; uploadPct := uploadPct s;
     uploadError := uploadError s; job := v; renderId := renderId s;
     renderStatus := renderStatus s; renderPct := renderPct s;
     renderErr := renderErr s; downloadUrl := downloadUrl s |}).

Definition setRenderId (v : Js.value) : Action := with_ui (fun s =>
  {| files := files s; apiOnline := apiOnline s;
     isUploading := isUploading s; uploadPct := uploadPct s;
     uploadError := uploadError s; job := job s; renderId := v;
     renderStatus := renderStatus s; renderPct := renderPct s;
     renderErr := renderErr s; downloadUrl := downloadUrl s |}).

Definition setRenderStatus (v : Js.value) : Action := with_ui (fun s =>
  {| files := files s; apiOnline := apiOnline s;
     isUploading := isUploading s; uploadPct := uploadPct s;
     uploadError := uploadError s; job := job s; renderId := renderId s;
     renderStatus := v; renderPct := renderPct s; renderErr := renderErr s;
     downloadUrl := downloadUrl s |}).

Definition setRenderPct (v : Js.value) : Action := with_ui (fun s =>
  {| files := files s; apiOnline := apiOnline s;
     isUploading := isUploading s; uploadPct := uploadPct s;
     uploadError := uploadError s; job := job s; renderId := renderId s;
     renderStatus := renderStatus s; renderPct := v;
     renderErr := renderErr s; downloadUrl := downloadUrl s |}).

Definition setRenderErr (v : Js.value) : Action := with_ui (fun s =>
  {| files := files s; apiOnline := apiOnline s;
     isUploading := isUploading s; uploadPct := uploadPct s;
     uploadError := uploadError s; job := job s; renderId := renderId s;
     renderStatus := renderStatus s; renderPct := renderPct s;
     renderErr := v; downloadUrl := downloadUrl s |}).

Definition setDownloadUrl (v : string) : Action := with_ui (fun s =>
  {| files := files s; apiOnline := apiOnline s;
     isUploading := isUploading s; uploadPct := uploadPct s;
     uploadError := uploadError s; job := job s; renderId := renderId s;
     renderStatus := renderStatus s; renderPct := renderPct s;
     renderErr := renderErr s; downloadUrl := v |}).

(** The browser calls. *)

(** [URL.revokeObjectURL(u)]: logged; the store itself ignores a URL it no
    longer holds. *)
Definition revokeObjectURL (u : ObjectUrl) : Action := with_browser (fun b =>
  {| url_next := url_next b; url_revoked := u :: url_revoked b;
     timers := timers b; timer_next := timer_next b |}).

(** [fs.forEach(f => URL.revokeObjectURL(f.previewUrl))] *)
Fixpoint revokeAll (fs : list StagedFile) : Action :=
  match fs with
  | [] => skip
  | f :: rest => revokeObjectURL (previewUrl f) >>> revokeAll rest
  end.

(** [accepted.map(file => ({file, previewUrl: URL.createObjectURL(file), id}))],
    the first URL created being the [next]-th of the store. *)
Fixpoint stage (accepted : list File) (next : nat) : list StagedFile :=
  match accepted with
  | [] => []
  | f :: rest =>
      {| file := f; previewUrl := next; id := file_id f |} :: stage rest (S next)
  end.

Definition createObjectURLs (n : nat) : Action := with_browser (fun b =>
  {| url_next := url_next b + n; url_revoked := url_revoked b;
     timers := timers b; timer_next := timer_next b |}).

(** [clearInterval(t)] *)
Definition clearInterval (t : positive) : Action := with_browser (fun b =>
  {| url_next := url_next b; url_revoked := url_revoked b;
     timers := delete t (timers b); timer_next := timer_next b |}).

(** [if (pollRef.current) clearInterval(pollRef.current)], and the bare
    [clearInterval(pollRef.current)], which does nothing on [null]. *)
Definition clearPoll : Action := fun w =>
  match pollRef w with
  | Some t => clearInterval t w
  | None => w
  end.

(** [pollRef.current = setInterval(callback, ms)], the callback polling [rid]. *)
Definition setPollInterval (ms : Z) (rid : Js.value) : Action := fun w =>
  let t := timer_next (browser w) in
  (with_browser (fun b =>
     {| url_next := url_next b; url_revoked := url_revoked b;
        timers := <[t := {| period := ms; target := rid |}]> (timers b);
        timer_next := Pos.succ t |})
   >>> set_pollRef (Some t)) w.

(** The [files] field of the form [uploadFiles] builds:
    [files.forEach((f) => form.append('files', f.file ? f.file : f))], on the
    staged entries the page passes, each of which holds its [File]. *)
Definition uploadFiles_form (fs : list StagedFile) : list File := file <$> fs.

(** Sending a request. [send_upload fs] is [uploadFiles(fs, ...)] up to
    [xhr.send(form)]. *)
Definition send_upload (fs : list StagedFile) : Action := with_net (fun n =>
  {| health_inflight := health_inflight n;
     upload_inflight := S (upload_inflight n);
     upload_forms := upload_forms n ++ [uploadFiles_form fs];
     start_inflight := start_inflight n; poll_inflight := poll_inflight n |}).

Definition send_start (job_id : Js.value) : Action := with_net (fun n =>
  {| health_inflight := health_inflight n;
     upload_inflight := upload_inflight n;
     upload_forms := upload_forms n;
     start_inflight := start_inflight n ++ [job_id];
     poll_inflight := poll_inflight n |}).

Definition send_poll (rid : Js.value) : Action := with_net (fun n =>
  {| health_inflight := health_inflight n;
     upload_inflight := upload_inflight n;
     upload_forms := upload_forms n;
     start_inflight := start_inflight n;
     poll_inflight := poll_inflight n ++ [rid] |}).

(** ** pages/UploadPage.jsx: handlers *)

Section Component.

(** The environment of the build, and the message the engine gives the
    TypeError of a property read on [null]. *)
Variable VITE_API_URL : option string.
Variable TypeError_message : string.

Definition API_URL : string := Api.API_URL VITE_API_URL.

(** [setFiles(update)]. Every call site builds a new array, so the next
    render sees [files] changed and React runs the cleanup the previous
    render registered with
    [useEffect(() => () => files.forEach(f => URL.revokeObjectURL(f.previewUrl)), [files])],
    which revokes the URLs of the array that render saw. *)
Definition setFiles (update : list StagedFile -> list StagedFile) : Action :=
  fun w =>
    let prev := files (ui w) in
    (with_ui (fun s =>
       {| files := update prev; apiOnline := apiOnline s;
          isUploading := isUploading s; uploadPct := uploadPct s;
          uploadError := uploadError s; job := job s; renderId := renderId s;
          renderStatus := renderStatus s; renderPct := renderPct s;
          renderErr := renderErr s; downloadUrl := downloadUrl s |})
     >>> revokeAll prev) w.

(** The mount effect's
    [pingHealth(ctrl.signal).then(setApiOnline).catch(() => setApiOnline(false))],
    from the answer on. *)
Definition ping_settled (o : option bool) : Action :=
  match o with
  | Some online => setApiOnline online
  | None => setApiOnline false
  end.

Definition onDrop (accepted : list File) : Action := fun w =>
  let mapped := stage accepted (url_next (browser w)) in
  (createObjectURLs (length accepted)
   >>> setFiles (fun prev => take 25 (prev ++ mapped))
   >>> setJob Js.Null >>> setRenderId Js.Null >>> setRenderStatus Js.Null
   >>> setDownloadUrl "" >>> setRenderErr (Js.Str "") >>> setUploadError ""
   >>> setUploadPct 0 >>> setRenderPct (Js.Num 0)) w.

Definition removeFile (i : string) : Action :=
  setFiles (fun prev => filter (fun f => id f ≠ i) prev).

Definition clearAll : Action := fun w =>
  (revokeAll (files (ui w))
   >>> setFiles (fun _ => []) >>> setJob Js.Null >>> setRenderId Js.Null
   >>> setRenderStatus Js.Null >>> setDownloadUrl ""
   >>> setUploadError "" >>> setRenderErr (Js.Str "")
   >>> setUploadPct 0 >>> setRenderPct (Js.Num 0)) w.

(** [handleUpload] up to [await uploadFiles(...)] *)
Definition handleUpload : Action := fun w =>
  if (length (files (ui w)) =? 0)%nat || isUploading (ui w) then w
  else
    (setIsUploading true
     >>> setUploadPct 0 >>> setUploadError "" >>> setJob Js.Null
     >>> setRenderId Js.Null >>> setRenderStatus Js.Null >>> setDownloadUrl ""
     >>> send_upload (files (ui w))) w.

(** The progress callback [pct => setUploadPct(pct)] *)
Definition handleUpload_progress (pct : Z) : Action := setUploadPct pct.

(** [handleUpload] from the [await] on: [try], [catch (e)], [finally] *)
Definition handleUpload_settled (o : Settled) : Action :=
  match o with
  | Fulfilled resp => setJob resp >>> setUploadPct 100
  | Rejected message =>
      setUploadError (Js.str_or message "Upload failed") >>> setUploadPct 0
  end
  >>> setIsUploading false.

(** [handleStartRender] up to [await startRender(job.job_id)] *)
Definition handleStartRender : Action := fun w =>
  let s := ui w in
  if negb (Js.truthy (Js.get_opt (job s) "job_id"))
     || Js.is_str (renderStatus s) "processing"
     || Js.is_str (renderStatus s) "queued"
  then w
  else
    (setRenderErr (Js.Str "") >>> setRenderPct (Js.Num 0)
     >>> send_start (Js.get_opt (job s) "job_id")) w.

(** [handleStartRender] from the [await] on *)
Definition handleStartRender_settled (o : Settled) : Action :=
  match o with
  | Fulfilled r =>
      match Js.get r "render_id" with
      | Some rid =>
          setRenderId rid
          >>> setRenderStatus (Js.or_else (Js.get_opt r "status") (Js.Str "queued"))
          >>> clearPoll
          >>> setPollInterval 500 rid
      | None =>
          setRenderErr (Js.Str (Js.str_or TypeError_message "Could not start render"))
      end
  | Rejected message =>
      setRenderErr (Js.Str (Js.str_or message "Could not start render"))
  end.

(** The interval callback up to [await fetchRenderStatus(r.render_id)].
    [fetchRenderStatus] builds its URL from the render id before it fetches:
    when the id does not print, the call rejects with nothing sent, and the
    callback's empty [catch] takes the rejection. *)
Definition poll_tick (iv : Interval) : Action :=
  when (Js.prints (target iv)) (send_poll (target iv)).

(** The end of the interval callback, from [if (s.status === 'done' || ...)]
    on *)
Definition poll_finish (s status : Js.value) : Action :=
  when (Js.is_str status "done" || Js.is_str status "error")
    (clearPoll >>> set_pollRef None
     >>> when (Js.truthy (Js.get_opt s "error"))
           (setRenderErr (Js.get_opt s "error"))).

(** The interval callback from the [await] on; the [catch] is empty. The
    template literal of [setDownloadUrl] converts [s.download_url] to a
    string: when that throws, the callback ends there, with the status and
    the progress already set and the rest of it not run. *)
Definition poll_settled (o : Settled) : Action :=
  match o with
  | Fulfilled s =>
      match Js.get s "status" with
      | Some status =>
          setRenderStatus status
          >>> setRenderPct (Js.nullish (Js.get_opt s "progress") (Js.Num 0))
          >>> (if Js.truthy (Js.get_opt s "download_url") then
                 match Js.ToString (Js.get_opt s "download_url") with
                 | Some path => setDownloadUrl (API_URL +:+ path) >>> poll_finish s status
                 | None => skip
                 end
               else poll_finish s status)
      | None => skip
      end
  | Rejected _ => skip
  end.

(** The effect cleanups React runs when the component goes away: the
    revocation of the staged URLs and the stop of the poll timer. (The third
    cleanup aborts the health ping, whose answer could only change
    [apiOnline], and no state update reaches a page that is gone.) *)
Definition unmount : Action := fun w =>
  (revokeAll (files (ui w)) >>> clearPoll >>> set_mounted false) w.

(** ** What the rendered page lets the user do *)

(** [renderStatus === 'processing' || renderStatus === 'queued'] *)
Definition rendering (s : State) : bool :=
  Js.is_str (renderStatus s) "processing" || Js.is_str (renderStatus s) "queued".

(** The buttons live under [files.length > 0 && ...]. *)
Definition toolbar_shown (s : State) : bool :=
  negb (length (files s) =? 0)%nat.

(** The Clear button: [disabled={isUploading || renderStatus === 'processing'
    || renderStatus === 'queued'}] *)
Definition clear_enabled (s : State) : bool :=
  toolbar_shown s && negb (isUploading s || rendering s).

(** The Remove button of a thumbnail: one per staged file, passing that
    file's [id], with the same [disabled] as Clear. *)
Definition remove_enabled (i : string) (s : State) : bool :=
  bool_decide (i ∈ id <$> files s) && negb (isUploading s || rendering s).

(** The Upload button: [disabled={isUploading || !files.length || !apiOnline}] *)
Definition upload_enabled (s : State) : bool :=
  toolbar_shown s
  && negb (isUploading s || (length (files s) =? 0)%nat
           || negb (match apiOnline s with Some b => b | None => false end)).

(** The Render button: [disabled={!job?.job_id || renderStatus === 'processing'
    || renderStatus === 'queued'}] *)
Definition render_enabled (s : State) : bool :=
  toolbar_shown s
  && negb (negb (Js.truthy (Js.get_opt (job s) "job_id")) || rendering s).

(** ** The event loop *)

(** What happens to the page: answers of the network, clicks and drops of
    the user, ticks of the poll timer, and the component going away. The
    page re-renders between two events; of rendering, only what it shows and
    enables is modelled. *)
Inductive Event : Type :=
  | HealthSettled (res : Http)
  | Drop (accepted : list File)
  | Remove (i : string)
  | Clear
  | ClickUpload
  | UploadProgress (pct : Z)
  | UploadLoad (status : Z) (response : Js.value)
  | UploadNetError
  | ClickStartRender
  | StartSettled (k : nat) (res : Http)
  | Tick (t : positive)
  | PollSettled (k : nat) (res : Http)
  | Unmount.

(** A continuation that runs after the component is gone: its state updates
    are dropped by React, the rest of it still happens. *)
Definition detached (a : Action) : Action := fun w =>
  if mounted w then a w else with_ui (fun _ => ui w) (a w).

(** The user can only act on a mounted page, through a control that is
    shown and enabled. *)
Definition user (enabled : State -> bool) (a : Action) : Action := fun w =>
  if mounted w && enabled (ui w) then a w else w.

Definition health_done : Action := with_net (fun n =>
  {| health_inflight := false;
     upload_inflight := upload_inflight n;
     upload_forms := upload_forms n;
     start_inflight := start_inflight n; poll_inflight := poll_inflight n |}).

Definition upload_done : Action := with_net (fun n =>
  {| health_inflight := health_inflight n;
     upload_inflight := pred (upload_inflight n);
     upload_forms := upload_forms n;
     start_inflight := start_inflight n; poll_inflight := poll_inflight n |}).

Definition start_done (k : nat) : Action := with_net (fun n =>
  {| health_inflight := health_inflight n;
     upload_inflight := upload_inflight n;
     upload_forms := upload_forms n;
     start_inflight := delete k (start_inflight n);
     poll_inflight := poll_inflight n |}).

Definition poll_done (k : nat) : Action := with_net (fun n =>
  {| health_inflight := health_inflight n;
     upload_inflight := upload_inflight n;
     upload_forms := upload_forms n;
     start_inflight := start_inflight n;
     poll_inflight := delete k (poll_inflight n) |}).

(** One event; an event that cannot happen (a click on a page that is gone
    or on a button that is hidden or disabled, an answer to a request that is
    not in flight, a tick of a cleared timer) leaves the world as it is. *)
Definition step (ev : Event) : Action := fun w =>
  match ev with
  | HealthSettled res =>
      if health_inflight (net w)
      then (health_done >>> detached (ping_settled (Api.pingHealth res))) w
      else w
  | Drop accepted => user (fun _ => true) (onDrop accepted) w
  | Remove i => user (remove_enabled i) (removeFile i) w
  | Clear => user clear_enabled clearAll w
  | ClickUpload => user upload_enabled handleUpload w
  | UploadProgress pct =>
      if (upload_inflight (net w) =? 0)%nat then w
      else detached (handleUpload_progress pct) w
  | UploadLoad status response =>
      if (upload_inflight (net w) =? 0)%nat then w
      else
        match Api.uploadFiles_onload status response with
        | Some o => (upload_done >>> detached (handleUpload_settled o)) w
        | None => upload_done w
        end
  | UploadNetError =>
      if (upload_inflight (net w) =? 0)%nat then w
      else (upload_done
            >>> detached (handleUpload_settled Api.uploadFiles_onerror)) w
  | ClickStartRender => user render_enabled handleStartRender w
  | StartSettled k res =>
      match start_inflight (net w) !! k with
      | Some _ =>
          (start_done k >>> detached (handleStartRender_settled (Api.startRender res))) w
      | None => w
      end
  | Tick t =>
      match timers (browser w) !! t with
      | Some iv => poll_tick iv w
      | None => w
      end
  | PollSettled k res =>
      match poll_inflight (net w) !! k with
      | Some _ =>
          (poll_done k >>> detached (poll_settled (Api.fetchRenderStatus res))) w
      | None => w
      end
  | Unmount => user (fun _ => true) unmount w
  end.

Definition run (evs : list Event) (w : World) : World :=
  foldl (fun w ev => step ev w) w evs.

(** The preview URLs created and not revoked since. *)
Definition outstanding (w : World) : list ObjectUrl :=
  filter (fun u => u ∉ url_revoked (browser w)) (seq 0 (url_next (browser w))).

(** ** Invariants, classifications of answers, and sample data *)

(** Every staged entry carries the identifier computed from its file. *)
Definition ids_derived (w : World) : Prop :=
  Forall (fun x => id x = file_id (file x)) (files (ui w)).

(** The only live timer is the one [pollRef] holds, and it ticks every
    500 ms. *)
Definition one_poll_loop (w : World) : Prop :=
  forall t iv,
    timers (browser w) !! t = Some iv -> pollRef w = Some t ∧ period iv = 500%Z.

(** At most one upload is in flight; while it is, no job is recorded, and
    the mounted page shows [isUploading]. *)
Definition single_upload (w : World) : Prop :=
  upload_inflight (net w) <= 1
  ∧ (upload_inflight (net w) = 1 -> job (ui w) = Js.Null)
  ∧ (mounted w = true -> upload_inflight (net w) = 1 -> isUploading (ui w) = true).

(** A status fetch that succeeds and reports [done] or [error]. *)
Definition answers_terminal (res : Http) : bool :=
  match Api.fetchRenderStatus res with
  | Fulfilled s =>
      match Js.get s "status" with
      | Some status => Js.is_str status "done" || Js.is_str status "error"
      | None => false
      end
  | Rejected _ => false
  end.

(** A status fetch whose answer runs the interval callback to its end:
    any download location it names can be printed. *)
Definition answer_prints (res : Http) : bool :=
  match Api.fetchRenderStatus res with
  | Fulfilled s => Js.prints (Js.get_opt s "download_url")
  | Rejected _ => true
  end.

(** A status fetch that fails: the network fails, the server answers with
    a status outside 200..299, or the body is not JSON or is [null]. *)
Definition transient_failure (res : Http) : bool :=
  match res with
  | NetworkError _ => true
  | Response status body =>
      negb (Api.ok status)
      || match body with
         | NotJson _ => true
         | Json Js.Null => true
         | Json _ => false
         end
  end.

(** Sample data for the worked examples. *)
Definition health_ok : Http :=
  Response 200 (Json (Js.Obj [("status", Js.Str "ok")])).

Definition upload_ok : Js.value :=
  Js.Obj [("job_id", Js.Str "j1"); ("saved_count", Js.Num 1);
          ("skipped_count", Js.Num 0)].

Definition render_started (rid : string) : Http :=
  Response 200 (Json (Js.Obj [("render_id", Js.Str rid); ("status", Js.Str "queued")])).

Definition status_is (status : string) (progress : Z) : Http :=
  Response 200 (Json (Js.Obj [("status", Js.Str status); ("progress", Js.Num progress)])).

Definition status_done (progress : Z) (download_url : string) : Http :=
  Response 200 (Json (Js.Obj [("status", Js.Str "done"); ("progress", Js.Num progress);
                             ("download_url", Js.Str download_url)])).

(** A value JSON can deliver and that cannot be printed. *)
Definition unprintable : Js.value := Js.Obj [("toString", Js.Num 1)].

(** A refusal whose detail is no message. *)
Definition refused_unprintable : Js.value := Js.Obj [("detail", unprintable)].

(** [done], with a download location that cannot be printed. *)
Definition status_done_unprintable : Http :=
  Response 200 (Json (Js.Obj [("status", Js.Str "done"); ("progress", Js.Num 100);
                             ("download_url", unprintable)])).

(** An answer that parses and has none of the fields. *)
Definition status_empty : Http := Response 200 (Json (Js.Obj [])).


(** Stage [f], upload it, start a render that the server calls [r1]. *)
Definition render_running (f : File) : list Event :=
  [HealthSettled health_ok; Drop [f]; ClickUpload; UploadLoad 200 upload_ok;
   ClickStartRender; StartSettled 0 (render_started "r1")].

(** The same with two clicks on the render button before the first start is
    answered, a tick of the first poll in between the two answers. *)
Definition render_running_twice (f : File) : list Event :=
  [HealthSettled health_ok; Drop [f]; ClickUpload; UploadLoad 200 upload_ok;
   ClickStartRender; ClickStartRender;
   StartSettled 0 (render_started "r1"); Tick 1;
   StartSettled 0 (render_started "r2")].

Definition photo : File :=
  {| name := "a.png"; size := 1024; lastModified := 1700000000000; blob := 0 |}.

(** The same name, size and modification time as [photo], other content. *)
Definition photo_twin : File :=
  {| name := "a.png"; size := 1024; lastModified := 1700000000000; blob := 1 |}.

Definition other_photo : File :=
  {| name := "b.png"; size := 2048; lastModified := 1700000000001; blob := 2 |}.

Definition engine_message : string := "Cannot read properties of null".

(** ** Further invariants, and the job check of the earlier page *)

(** The request in flight was sent without an error text on a page that saw
    the API online; and the health badge is set by the answer to the one
    ping. *)
Definition upload_discipline (w : World) : Prop :=
  (upload_inflight (net w) = 1 -> uploadError (ui w) = "")
  ∧ (upload_inflight (net w) = 1 -> apiOnline (ui w) = Some true)
  ∧ (forall b, apiOnline (ui w) = Some b -> health_inflight (net w) = false).

(** Every render start in flight was sent with a truthy job id. *)
Definition starts_have_job (w : World) : Prop :=
  Forall (fun j => Js.truthy j = true) (start_inflight (net w)).

(** The download location is empty or begins with the base address. *)
Definition location_qualified (w : World) : Prop :=
  downloadUrl (ui w) = "" ∨ exists path, downloadUrl (ui w) = API_URL +:+ path.

(** The staged preview URLs are pairwise distinct, and the store has created
    every URL that is staged or was revoked. *)
Definition urls_in_order (w : World) : Prop :=
  NoDup (previewUrl <$> files (ui w))
  ∧ Forall (fun u => u < url_next (browser w)) (previewUrl <$> files (ui w))
  ∧ Forall (fun u => u < url_next (browser w)) (url_revoked (browser w)).

(** Every URL the store created is still staged or was revoked. *)
Definition no_leak (w : World) : Prop :=
  forall u, u < url_next (browser w) ->
            u ∈ url_revoked (browser w) ∨ u ∈ previewUrl <$> files (ui w).

(** A drop fits when the staging set has room for all of it. *)
Definition fits (ev : Event) (w : World) : bool :=
  match ev with
  | Drop accepted => bool_decide (length (files (ui w)) + length accepted <= 25)
  | _ => true
  end.

Fixpoint all_fit (evs : list Event) (w : World) : bool :=
  match evs with
  | [] => true
  | ev :: rest => fits ev w && all_fit rest (step ev w)
  end.

(** What the page renders of the two error texts. The upload block,
    [(isUploading || uploadPct > 0) && ...], and the render block,
    [(renderStatus && renderStatus !== 'done') && ...], both live under
    [files.length > 0]; each shows its error text when that is not empty. *)
Definition upload_block_shown (s : State) : bool :=
  toolbar_shown s && (isUploading s || (0 <? uploadPct s)%Z).

Definition upload_error_shown (s : State) : bool :=
  upload_block_shown s && negb (String.eqb (uploadError s) "").

Definition render_block_shown (s : State) : bool :=
  toolbar_shown s
  && (Js.truthy (renderStatus s) && negb (Js.is_str (renderStatus s) "done")).

Definition render_error_shown (s : State) : bool :=
  render_block_shown s && Js.truthy (renderErr s).

(** An upload error text is only ever held with the upload flag off and the
    progress at 0. *)
Definition error_after_upload (w : World) : Prop :=
  uploadError (ui w) ≠ "" -> isUploading (ui w) = false ∧ uploadPct (ui w) = 0%Z.

(** [getJob] of lib/api.js *)
Definition getJob : Http -> Settled := Api.fetch_json "Job not found".

(** The line feed, character 10. *)
Definition newline : string :=
  String (Ascii.Ascii false true false true false false false false) EmptyString.

(** [names.join(sep)] *)
Fixpoint array_join (sep : string) (names : list Js.value) : string :=
  match names with
  | [] => ""
  | x :: rest =>
      let sx :=
        match x with
        | Js.Undefined | Js.Null => ""
        | _ => Js.to_string x
        end in
      match rest with
      | [] => sx
      | _ :: _ => sx +:+ sep +:+ array_join sep rest
      end
  end.

(** [checkJob] of the page before render polling, up to [await getJob(job.job_id)]:
    the job id it passes to [getJob], [None] when it returns at its guard.
    ([getJob] builds its URL from the id first, and rejects with nothing
    sent when the id does not print.) *)
Definition checkJob (job : Js.value) : option Js.value :=
  if negb (Js.truthy (Js.get_opt job "job_id")) then None
  else Some (Js.get_opt job "job_id").

Definition checkJob_failed : string := "Could not fetch job details.".

(** [checkJob] from the [await] on: the text it passes to [alert]. Building
    the text reads [j.job_id], [j.files.length] and calls [j.files.join]; of
    the values JSON can give, only an array has a [join] to call, and every
    TypeError on the way, those of a job id or a file name that does not
    print among them, lands in the [catch]. *)
Definition checkJob_settled (o : Settled) : string :=
  match o with
  | Fulfilled j =>
      match Js.get j "job_id", Js.get j "files" with
      | Some job_id, Some (Js.Arr names) =>
          if Js.prints job_id && forallb Js.prints names then
            "Job " +:+ Js.to_string job_id +:+ " has "
            +:+ pretty (Z.of_nat (length names)) +:+ " files:" +:+ newline
            +:+ array_join newline names
          else checkJob_failed
      | _, _ => checkJob_failed
      end
  | Rejected _ => checkJob_failed
  end.

(** ** Frame lemmas *)

Lemma revokeAll_frame (fs : list StagedFile) (w : World) :
  ui (revokeAll fs w) = ui w
  ∧ pollRef (revokeAll fs w) = pollRef w
  ∧ net (revokeAll fs w) = net w
  ∧ mounted (revokeAll fs w) = mounted w
  ∧ timers (browser (revokeAll fs w)) = timers (browser w)
  ∧ timer_next (browser (revokeAll fs w)) = timer_next (browser w)
  ∧ url_next (browser (revokeAll fs w)) = url_next (browser w).
Proof.
  revert w; induction fs as [|f fs IH]; intros w; [done|].
  cbn [revokeAll]; unfold andThen.
  destruct (IH (revokeObjectURL (previewUrl f) w)) as (-> & -> & -> & -> & -> & -> & ->).
  done.
Qed.

Lemma revokeAll_ui (fs : list StagedFile) (w : World) :
  ui (revokeAll fs w) = ui w.
Proof. apply revokeAll_frame. Qed.

Lemma revokeAll_pollRef (fs : list StagedFile) (w : World) :
  pollRef (revokeAll fs w) = pollRef w.
Proof. apply revokeAll_frame. Qed.

Lemma revokeAll_net (fs : list StagedFile) (w : World) :
  net (revokeAll fs w) = net w.
Proof. apply revokeAll_frame. Qed.

Lemma revokeAll_mounted (fs : list StagedFile) (w : World) :
  mounted (revokeAll fs w) = mounted w.
Proof. apply revokeAll_frame. Qed.

Lemma revokeAll_timers (fs : list StagedFile) (w : World) :
  timers (browser (revokeAll fs w)) = timers (browser w).
Proof. apply revokeAll_frame. Qed.

(** The log after a [forEach] of revocations: the URLs of [fs], last first. *)
Lemma revokeAll_revoked (fs : list StagedFile) (w : World) :
  url_revoked (browser (revokeAll fs w))
  = reverse (previewUrl <$> fs) ++ url_revoked (browser w).
Proof.
  revert w; induction fs as [|f fs IH]; intros w; [done|].
  cbn [revokeAll]; unfold andThen.
  by rewrite IH, fmap_cons, reverse_cons, <- app_assoc.
Qed.

(** Unfolding the handlers down to record expressions. The reduction is
    call by value, so that every intermediate world is a record with small
    fields before the next setter copies it. *)
Ltac projections :=
  cbv beta iota zeta delta
    [ui pollRef browser net mounted
     files apiOnline isUploading uploadPct uploadError job renderId
     renderStatus renderPct renderErr downloadUrl
     url_next url_revoked timers timer_next
     health_inflight upload_inflight upload_forms start_inflight poll_inflight] in *.

Ltac handlers :=
  cbv beta iota zeta delta
    [step user detached ping_settled health_done setApiOnline
     onDrop removeFile clearAll handleUpload
     handleUpload_progress handleUpload_settled handleStartRender
     handleStartRender_settled poll_tick poll_finish poll_settled unmount setFiles
     upload_done start_done poll_done when skip andThen
     setPollInterval clearPoll clearInterval createObjectURLs
     send_upload send_start send_poll
     setIsUploading setUploadPct setUploadError setJob setRenderId
     setRenderStatus setRenderPct setRenderErr setDownloadUrl
     set_pollRef set_mounted with_ui with_browser with_net
     ui pollRef browser net mounted
     files apiOnline isUploading uploadPct uploadError job renderId
     renderStatus renderPct renderErr downloadUrl
     url_next url_revoked timers timer_next
     health_inflight upload_inflight upload_forms start_inflight poll_inflight] in *.

Ltac frames :=
  repeat (progress
            (repeat first
               [ rewrite revokeAll_ui | rewrite revokeAll_pollRef
               | rewrite revokeAll_net | rewrite revokeAll_mounted
               | rewrite revokeAll_timers ]);
          projections).

(** Case analysis on every test a handler makes. *)
Ltac branches :=
  repeat match goal with
         | |- context [match ?x with _ => _ end] => destruct x eqn:?; projections
         end.

(** ** The staging set *)

(** What an event does to [files]. *)
Lemma files_step (ev : Event) (w : World) :
  files (ui (step ev w)) =
  match ev with
  | Drop accepted =>
      if mounted w
      then take 25 (files (ui w) ++ stage accepted (url_next (browser w)))
      else files (ui w)
  | Remove i =>
      if mounted w && remove_enabled i (ui w)
      then filter (fun f => id f ≠ i) (files (ui w))
      else files (ui w)
  | Clear => if mounted w && clear_enabled (ui w) then [] else files (ui w)
  | _ => files (ui w)
  end.
Proof.
  destruct ev; handlers; rewrite ?andb_true_r; frames; branches; frames;
    try done.
Qed.

Lemma run_cons (ev : Event) (evs : list Event) (w : World) :
  run (ev :: evs) w = run evs (step ev w).
Proof. reflexivity. Qed.

Lemma run_snoc (evs : list Event) (ev : Event) (w : World) :
  run (evs ++ [ev]) w = step ev (run evs w).
Proof. unfold run. by rewrite foldl_app. Qed.

(** A property that holds at the start and that every event keeps holds
    after any run. *)
Lemma run_invariant (P : World -> Prop) (evs : list Event) (w : World) :
  P w -> (forall ev w, P w -> P (step ev w)) -> P (run evs w).
Proof.
  intros Hw Hstep. revert w Hw.
  induction evs as [|ev evs IH]; intros w Hw; [done|].
  rewrite run_cons. apply IH, Hstep, Hw.
Qed.

Lemma cap_step (ev : Event) (w : World) :
  length (files (ui w)) <= 25 -> length (files (ui (step ev w))) <= 25.
Proof.
  intros Hw. rewrite files_step.
  destruct ev; try done; destruct (mounted w); cbn [andb]; try done.
  - rewrite length_take. lia.
  - destruct (remove_enabled i (ui w)); [|done].
    etransitivity; [apply length_filter | done].
  - destruct (clear_enabled (ui w)); [cbn; lia | done].
Qed.

Lemma cap_run (evs : list Event) :
  length (files (ui (run evs init))) <= 25.
Proof.
  apply (run_invariant (fun w => length (files (ui w)) <= 25)).
  - cbn. lia.
  - apply cap_step.
Qed.

Lemma stage_ids (accepted : list File) (next : nat) :
  Forall (fun x => id x = file_id (file x)) (stage accepted next).
Proof.
  revert next; induction accepted as [|f fs IH]; intros next; cbn; [done|].
  constructor; [done | apply IH].
Qed.

Lemma ids_step (ev : Event) (w : World) :
  ids_derived w -> ids_derived (step ev w).
Proof.
  unfold ids_derived. intros Hw. rewrite files_step.
  destruct ev; try done; destruct (mounted w); cbn [andb]; try done.
  - apply Forall_take, Forall_app. split; [done | apply stage_ids].
  - destruct (remove_enabled i (ui w)); [|done].
    rewrite Forall_forall in *. intros x Hx.
    apply list_elem_of_filter in Hx as [_ Hx]. by apply Hw.
  - by destruct (clear_enabled (ui w)).
Qed.

Lemma ids_run (evs : list Event) : ids_derived (run evs init).
Proof.
  apply (run_invariant ids_derived); [by constructor | apply ids_step].
Qed.

Lemma files_onDrop (accepted : list File) (w : World) :
  files (ui (onDrop accepted w))
  = take 25 (files (ui w) ++ stage accepted (url_next (browser w))).
Proof. handlers; frames; done. Qed.

Lemma files_removeFile (i : string) (w : World) :
  files (ui (removeFile i w)) = filter (fun f => id f ≠ i) (files (ui w)).
Proof. handlers; frames; done. Qed.

Lemma files_clearAll (w : World) : files (ui (clearAll w)) = [].
Proof. handlers; frames; done. Qed.

(** C4. Whatever the sequence of events (drops of any size, removals,
    clears, and everything else the page can see), the staging set never
    holds more than 25 entries. A drop appends the new entries after the old
    ones and keeps the first 25 of the result, so the entries already staged
    stay, in their order, at the front, and what is cut is the tail; a
    removal keeps the remaining entries in their order. *)
Theorem staging_set_capped (evs : list Event) :
  length (files (ui (run evs init))) <= 25
  ∧ (forall accepted,
       files (ui (onDrop accepted (run evs init)))
       = take 25 (files (ui (run evs init))
                  ++ stage accepted (url_next (browser (run evs init))))
       ∧ files (ui (run evs init)) `prefix_of` files (ui (onDrop accepted (run evs init)))
       ∧ length (files (ui (onDrop accepted (run evs init))))
         = Nat.min 25 (length (files (ui (run evs init))) + length accepted))
  ∧ (forall i,
       files (ui (removeFile i (run evs init))) `sublist_of` files (ui (run evs init)))
  ∧ files (ui (clearAll (run evs init))) = [].
Proof.
  pose proof (cap_run evs) as Hcap.
  set (w := run evs init) in *.
  split; [done|]. split; [|split].
  - intros accepted. rewrite files_onDrop. split; [done|]. split.
    + rewrite take_app, (take_ge (files (ui w))) by done.
      by apply prefix_app_r.
    + rewrite length_take, length_app.
      assert (length (stage accepted (url_next (browser w))) = length accepted) as ->; [|done].
      generalize (url_next (browser w)).
      induction accepted as [|f fs IH]; intros n; cbn; [done | by rewrite IH].
  - intros i. rewrite files_removeFile. apply sublist_filter.
  - apply files_clearAll.
Qed.

(** ** The poll loop *)

#[local] Set Warnings "-clear-no-such-hyp".

Lemma one_poll_loop_step (ev : Event) (w : World) :
  one_poll_loop w -> one_poll_loop (step ev w).
Proof.
  unfold one_poll_loop. intros Hw t iv.
  destruct ev; handlers; frames; branches; frames;
    rewrite ?lookup_insert_Some, ?lookup_delete_Some; naive_solver.
Qed.

Lemma one_poll_loop_run (evs : list Event) : one_poll_loop (run evs init).
Proof.
  apply (run_invariant one_poll_loop); [|apply one_poll_loop_step].
  intros t iv. cbn. by rewrite lookup_empty.
Qed.

(** ** The upload *)

Lemma single_upload_step (ev : Event) (w : World) :
  single_upload w -> single_upload (step ev w).
Proof.
  unfold single_upload. intros (Hle & Hjob & Hflag).
  assert (upload_inflight (net w) = 0 ∨ upload_inflight (net w) = 1) as E by lia.
  destruct ev; handlers; frames; branches; frames;
    repeat match goal with
           | H : (_ =? _)%nat = true |- _ => apply Nat.eqb_eq in H
           | H : (_ =? _)%nat = false |- _ => apply Nat.eqb_neq in H
           | H : _ || _ = false |- _ => apply orb_false_elim in H as [? ?]
           | H : _ && _ = true |- _ => apply andb_prop in H as [? ?]
           end;
    first
      [ split; [lia | split; intros; first [done | lia | congruence | auto with lia]]
      | destruct E as [E|E];
        [ rewrite E; split; [lia | by split]
        | assert (isUploading (ui w) = true) by auto; congruence ] ].
Qed.

Lemma single_upload_run (evs : list Event) : single_upload (run evs init).
Proof.
  apply (run_invariant single_upload); [|apply single_upload_step].
  unfold single_upload; cbn. split; [lia | by split].
Qed.

(** The end of a rejected upload on a mounted page: the [catch] and the
    [finally] of [handleUpload]. *)
Lemma upload_rejected (w : World) (o : Settled) (message : string) :
  mounted w = true ->
  o = Rejected message ->
  job (ui ((upload_done >>> detached (handleUpload_settled o)) w)) = job (ui w)
  ∧ isUploading (ui ((upload_done >>> detached (handleUpload_settled o)) w)) = false
  ∧ uploadPct (ui ((upload_done >>> detached (handleUpload_settled o)) w)) = 0%Z
  ∧ files (ui ((upload_done >>> detached (handleUpload_settled o)) w)) = files (ui w)
  ∧ uploadError (ui ((upload_done >>> detached (handleUpload_settled o)) w))
    = Js.str_or message "Upload failed".
Proof.
  intros Hm ->. handlers. by rewrite Hm.
Qed.

Lemma step_UploadLoad (status : Z) (response : Js.value) (o : Settled) (w : World) :
  upload_inflight (net w) ≠ 0 ->
  Api.uploadFiles_onload status response = Some o ->
  step (UploadLoad status response) w
  = (upload_done >>> detached (handleUpload_settled o)) w.
Proof.
  intros Hn Ho. unfold step. rewrite Ho.
  destruct (Nat.eqb_spec (upload_inflight (net w)) 0) as [E|E]; [by destruct Hn | done].
Qed.

(** [xhr.onload] threw: the request is over and [handleUpload] is never
    resumed. *)
Lemma step_UploadLoad_pending (status : Z) (response : Js.value) (w : World) :
  upload_inflight (net w) ≠ 0 ->
  Api.uploadFiles_onload status response = None ->
  step (UploadLoad status response) w = upload_done w.
Proof.
  intros Hn Ho. unfold step. rewrite Ho.
  destruct (Nat.eqb_spec (upload_inflight (net w)) 0) as [E|E]; [by destruct Hn | done].
Qed.

Lemma uploadFiles_onload_refused (status : Z) (response : Js.value) :
  Api.ok status = false ->
  Api.uploadFiles_onload status response
  = match Js.ToString
            (Js.or_else (Js.get_opt response "detail")
                        (Js.Str ("Upload failed (" +:+ pretty status +:+ ")"))) with
    | Some text => Some (Rejected text)
    | None => None
    end.
Proof. intros Hok. unfold Api.uploadFiles_onload. by rewrite Hok. Qed.


Lemma step_UploadNetError (w : World) :
  upload_inflight (net w) ≠ 0 ->
  step UploadNetError w
  = (upload_done >>> detached (handleUpload_settled Api.uploadFiles_onerror)) w.
Proof.
  intros Hn. unfold step.
  destruct (Nat.eqb_spec (upload_inflight (net w)) 0) as [E|E]; [by destruct Hn | done].
Qed.


Lemma truthy_Str (s : string) : s ≠ "" -> Js.truthy (Js.Str s) = true.
Proof.
  intros Hs. cbn. destruct (String.eqb_spec s "") as [E|E]; [by destruct Hs | done].
Qed.


Lemma prints_falsy (v : Js.value) : Js.truthy v = false -> Js.prints v = true.
Proof. by destruct v. Qed.

Lemma clearPoll_empty (w : World) :
  one_poll_loop w -> timers (browser (clearPoll w)) = ∅.
Proof.
  intros Hw. apply map_empty. intros t.
  destruct (timers (browser (clearPoll w)) !! t) as [iv|] eqn:Hl; [|done].
  unfold clearPoll in Hl. destruct (pollRef w) as [p|] eqn:Hp.
  - cbn in Hl. apply lookup_delete_Some in Hl as [Hne Hl].
    destruct (Hw t iv Hl) as [Ht _]. congruence.
  - destruct (Hw t iv Hl) as [Ht _]. congruence.
Qed.

Lemma poll_after_PollSettled (k : nat) (res : Http) (w : World) (q : Js.value) :
  poll_inflight (net w) !! k = Some q ->
  timers (browser (step (PollSettled k res) w))
  = (if answers_terminal res && answer_prints res
     then timers (browser (clearPoll w))
     else timers (browser w))
  ∧ pollRef (step (PollSettled k res) w)
    = (if answers_terminal res && answer_prints res then None else pollRef w).
Proof.
  intros Hq. unfold answers_terminal, answer_prints, step. rewrite Hq.
  destruct (Api.fetchRenderStatus res) as [s|m];
    [|handlers; branches; by simplify_eq].
  pose proof (prints_falsy (Js.get_opt s "download_url")) as Hfalsy.
  handlers. unfold Js.ToString.
  destruct (Js.prints (Js.get_opt s "download_url"));
    destruct (Js.truthy (Js.get_opt s "download_url"));
    try (by discriminate Hfalsy);
    rewrite ?andb_true_r, ?andb_false_r; branches; by simplify_eq.
Qed.

Lemma poll_after_StartSettled
    (k : nat) (res : Http) (w : World) (q r rid : Js.value) :
  start_inflight (net w) !! k = Some q ->
  Api.startRender res = Fulfilled r ->
  Js.get r "render_id" = Some rid ->
  timers (browser (step (StartSettled k res) w))
  = <[timer_next (browser w) := {| period := 500; target := rid |}]>
      (timers (browser (clearPoll w)))
  ∧ pollRef (step (StartSettled k res) w) = Some (timer_next (browser w)).
Proof.
  intros Hq Hr Hrid. unfold step. rewrite Hq.
  unfold andThen, detached, handleStartRender_settled. rewrite Hr, Hrid.
  handlers; branches; by simplify_eq.
Qed.

Lemma step_Tick_dead (t : positive) (w : World) :
  timers (browser w) = ∅ -> step (Tick t) w = w.
Proof. intros Hw. unfold step. by rewrite Hw, lookup_empty. Qed.

(** X24. The life of the poll timer. After any history: (1) when a render start
    is answered with a render id, the only live timer is a 500 ms interval
    polling that id, held by [pollRef]; (2) every live timer has period 500
    and is the one [pollRef] holds; each of its ticks sends exactly one status
    fetch, for the render id it was set up with, and changes nothing else,
    unless that id cannot be printed, in which case the tick changes nothing
    at all; (3) an answer to a status fetch in flight, whichever render the
    fetch was sent for, clears the timers exactly if the fetch succeeded with
    status [done] or [error] and any download location it names can be
    printed: then no timer is left, so no tick sends another fetch; otherwise
    the timers and [pollRef] are as before. So a render whose first status
    fetch is answered [done] with a download location that cannot be printed
    shows [done], keeps its timer, and polls again at the next tick. *)
Theorem poll_timer_lifecycle (evs : list Event) :
  (forall k res q r rid,
      start_inflight (net (run evs init)) !! k = Some q ->
      Api.startRender res = Fulfilled r ->
      Js.get r "render_id" = Some rid ->
      exists t,
        pollRef (step (StartSettled k res) (run evs init)) = Some t
        ∧ timers (browser (step (StartSettled k res) (run evs init)))
          = {[ t := {| period := 500; target := rid |} ]})
  ∧ (forall t iv,
       timers (browser (run evs init)) !! t = Some iv ->
       period iv = 500%Z
       ∧ pollRef (run evs init) = Some t
       ∧ (Js.prints (target iv) = true ->
          step (Tick t) (run evs init) = send_poll (target iv) (run evs init)
          ∧ poll_inflight (net (step (Tick t) (run evs init)))
            = poll_inflight (net (run evs init)) ++ [target iv])
       ∧ (Js.prints (target iv) = false ->
          step (Tick t) (run evs init) = run evs init))
  ∧ (forall k res q,
       poll_inflight (net (run evs init)) !! k = Some q ->
       if answers_terminal res && answer_prints res
       then timers (browser (step (PollSettled k res) (run evs init))) = ∅
            ∧ pollRef (step (PollSettled k res) (run evs init)) = None
            ∧ forall t, step (Tick t) (step (PollSettled k res) (run evs init))
                        = step (PollSettled k res) (run evs init)
       else timers (browser (step (PollSettled k res) (run evs init)))
            = timers (browser (run evs init))
            ∧ pollRef (step (PollSettled k res) (run evs init))
              = pollRef (run evs init))
  ∧ (forall f,
       renderStatus (ui (run (render_running f
                               ++ [Tick 1; PollSettled 0 status_done_unprintable])
                             init)) = Js.Str "done"
       ∧ timers (browser (run (render_running f
                                ++ [Tick 1; PollSettled 0 status_done_unprintable])
                              init)) !! 1%positive
         = Some {| period := 500; target := Js.Str "r1" |}
       ∧ poll_inflight (net (run (render_running f
                                  ++ [Tick 1; PollSettled 0 status_done_unprintable;
                                      Tick 1])
                                 init)) = [Js.Str "r1"]).
Proof.
  pose proof (one_poll_loop_run evs) as Hinv.
  set (w := run evs init) in *.
  split; [|split; [|split]]; [| | |intros f; repeat split; reflexivity].
  - intros k res q r rid Hq Hr Hrid.
    destruct (poll_after_StartSettled k res w q r rid Hq Hr Hrid) as [Ht Hp].
    exists (timer_next (browser w)). split; [done|].
    by rewrite Ht, clearPoll_empty.
  - intros t iv Hl. destruct (Hinv t iv Hl) as [Hp Hper].
    split; [done|]. split; [done|]. split.
    + intros Hprints.
      assert (step (Tick t) w = send_poll (target iv) w) as ->
        by (unfold step, poll_tick, when; by rewrite Hl, Hprints).
      done.
    + intros Hprints. unfold step, poll_tick, when. by rewrite Hl, Hprints.
  - intros k res q Hq.
    destruct (poll_after_PollSettled k res w q Hq) as [Ht Hp].
    destruct (answers_terminal res && answer_prints res).
    + rewrite clearPoll_empty in Ht by done.
      split; [done|]. split; [done|]. intros t. by apply step_Tick_dead.
    + done.
Qed.

Lemma step_PollSettled_failure (k : nat) (res : Http) (w : World) (q : Js.value) :
  poll_inflight (net w) !! k = Some q ->
  transient_failure res = true ->
  step (PollSettled k res) w = poll_done k w.
Proof.
  intros Hq Hres. unfold step. rewrite Hq.
  assert (poll_settled (Api.fetchRenderStatus res) = skip) as ->.
  { destruct res as [m|status [v|m]]; cbn in Hres |- *; [done| |].
    - destruct (Api.ok status); [|done].
      destruct v; try done.
    - by destruct (Api.ok status). }
  unfold andThen, detached, skip. by destruct (mounted _).
Qed.

(** C8, as the page has it. A status fetch that fails (network failure, a
    status outside 200..299, a body that is not JSON or is [null]) changes
    nothing but the list of requests in flight: all of the exposed state,
    render status, progress and both error texts included, is as before,
    [pollRef] and the timers are as before, so every timer that was live
    still ticks and its next tick sends the next fetch (for a render id that
    prints). No answer to a status fetch changes the timers or [pollRef]
    unless the fetch succeeded with status [done] or [error]. In the worked
    example a body that is not JSON arrives between
    [processing 40] and [done 100]: after it the status is still
    [processing], the progress 40 and the timer live, and the later answer is
    applied as usual. *)
Theorem poll_failure_is_swallowed
    (w : World) (k : nat) (res : Http) (q : Js.value) :
  poll_inflight (net w) !! k = Some q ->
  transient_failure res = true ->
  (ui (step (PollSettled k res) w) = ui w
   ∧ pollRef (step (PollSettled k res) w) = pollRef w
   ∧ browser (step (PollSettled k res) w) = browser w
   ∧ poll_inflight (net (step (PollSettled k res) w)) = delete k (poll_inflight (net w))
   ∧ forall t iv,
       timers (browser w) !! t = Some iv ->
       Js.prints (target iv) = true ->
       step (Tick t) (step (PollSettled k res) w)
       = send_poll (target iv) (step (PollSettled k res) w))
  ∧ (forall answer,
       timers (browser (step (PollSettled k answer) w)) ≠ timers (browser w)
       ∨ pollRef (step (PollSettled k answer) w) ≠ pollRef w ->
       answers_terminal answer = true)
  ∧ (forall f,
       renderStatus (ui (run (render_running f
                               ++ [Tick 1; PollSettled 0 (status_is "processing" 40);
                                   Tick 1; PollSettled 0 (Response 200 (NotJson "Unexpected token"))])
                             init)) = Js.Str "processing"
       ∧ renderPct (ui (run (render_running f
                              ++ [Tick 1; PollSettled 0 (status_is "processing" 40);
                                  Tick 1; PollSettled 0 (Response 200 (NotJson "Unexpected token"))])
                            init)) = Js.Num 40
       ∧ timers (browser (run (render_running f
                                ++ [Tick 1; PollSettled 0 (status_is "processing" 40);
                                    Tick 1; PollSettled 0 (Response 200 (NotJson "Unexpected token"))])
                              init)) !! 1%positive
         = Some {| period := 500; target := Js.Str "r1" |}
       ∧ renderStatus (ui (run (render_running f
                               ++ [Tick 1; PollSettled 0 (status_is "processing" 40);
                                   Tick 1; PollSettled 0 (Response 200 (NotJson "Unexpected token"));
                                   Tick 1; PollSettled 0 (status_done 100 "/dl/x.mp4")])
                             init)) = Js.Str "done").
Proof.
  intros Hq Hres. split; [|split].
  - rewrite (step_PollSettled_failure k res w q Hq Hres).
    split; [done|]. split; [done|]. split; [done|]. split; [done|].
    intros t iv Hl Hprints. unfold step, poll_tick, when. cbn. by rewrite Hl, Hprints.
  - intros answer Hchanged.
    destruct (poll_after_PollSettled k answer w q Hq) as [Ht Hp].
    destruct (answers_terminal answer); [done|].
    cbn [andb] in Ht, Hp. by destruct Hchanged.
  - intros f. repeat split; reflexivity.
Qed.

(** C9. When the answer to a status fetch carries a download location (a
    non-empty string), the location exposed afterwards is the backend base
    address followed by that path. In the worked example the answers
    [queued 0], [processing 40], [processing 90] and [done 100] with
    [download_url = /dl/x.mp4] arrive in this order: the page ends with status
    [done], progress 100, the base address followed by [/dl/x.mp4] as the
    download location, and no poll loop. *)
Theorem download_location_is_qualified
    (w : World) (s : Js.value) (path : string) :
  Js.get s "download_url" = Some (Js.Str path) ->
  path ≠ "" ->
  downloadUrl (ui (poll_settled (Fulfilled s) w)) = API_URL +:+ path
  ∧ (forall f,
       renderStatus (ui (run (render_running f
                               ++ [Tick 1; PollSettled 0 (status_is "queued" 0);
                                   Tick 1; PollSettled 0 (status_is "processing" 40);
                                   Tick 1; PollSettled 0 (status_is "processing" 90);
                                   Tick 1; PollSettled 0 (status_done 100 "/dl/x.mp4")])
                             init)) = Js.Str "done"
       ∧ renderPct (ui (run (render_running f
                              ++ [Tick 1; PollSettled 0 (status_is "queued" 0);
                                  Tick 1; PollSettled 0 (status_is "processing" 40);
                                  Tick 1; PollSettled 0 (status_is "processing" 90);
                                  Tick 1; PollSettled 0 (status_done 100 "/dl/x.mp4")])
                            init)) = Js.Num 100
       ∧ downloadUrl (ui (run (render_running f
                                ++ [Tick 1; PollSettled 0 (status_is "queued" 0);
                                    Tick 1; PollSettled 0 (status_is "processing" 40);
                                    Tick 1; PollSettled 0 (status_is "processing" 90);
                                    Tick 1; PollSettled 0 (status_done 100 "/dl/x.mp4")])
                              init)) = API_URL +:+ "/dl/x.mp4"
       ∧ pollRef (run (render_running f
                        ++ [Tick 1; PollSettled 0 (status_is "queued" 0);
                            Tick 1; PollSettled 0 (status_is "processing" 40);
                            Tick 1; PollSettled 0 (status_is "processing" 90);
                            Tick 1; PollSettled 0 (status_done 100 "/dl/x.mp4")])
                      init) = None).
Proof.
  intros Hurl Hne. split.
  - assert (Js.get_opt s "download_url" = Js.Str path) as Hopt
      by (unfold Js.get_opt; by rewrite Hurl).
    unfold poll_settled.
    destruct (Js.get s "status") as [status|] eqn:Hst.
    + rewrite Hopt, (truthy_Str path Hne). unfold Js.ToString. cbn [Js.prints].
      handlers; branches; frames; done.
    + destruct s; done.
  - intros f. repeat split; reflexivity.
Qed.

(** C10. After any history, [removeFile i] keeps exactly the staged entries
    whose identifier differs from [i], in their order. Every staged entry
    carries the identifier [name-size-lastModified] of its file, so two staged
    files that agree on name, size and modification time share one identifier,
    and removing either by its identifier removes both. *)
Theorem removeFile_removes_every_match (evs : list Event) (i : string) :
  files (ui (removeFile i (run evs init)))
  = filter (fun x => id x ≠ i) (files (ui (run evs init)))
  ∧ (forall x,
       x ∈ files (ui (removeFile i (run evs init)))
       <-> x ∈ files (ui (run evs init)) ∧ id x ≠ i)
  ∧ files (ui (removeFile i (run evs init))) `sublist_of` files (ui (run evs init))
  ∧ (forall x,
       x ∈ files (ui (run evs init)) ->
       id x = name (file x) +:+ "-" +:+ pretty (size (file x))
              +:+ "-" +:+ pretty (lastModified (file x)))
  ∧ (forall x y,
       x ∈ files (ui (run evs init)) ->
       y ∈ files (ui (run evs init)) ->
       name (file x) = name (file y) ->
       size (file x) = size (file y) ->
       lastModified (file x) = lastModified (file y) ->
       id x = id y
       ∧ (x ∉ files (ui (removeFile (id x) (run evs init))))
       ∧ (y ∉ files (ui (removeFile (id x) (run evs init))))).
Proof.
  pose proof (ids_run evs) as Hids. unfold ids_derived in Hids.
  rewrite Forall_forall in Hids.
  set (w := run evs init) in *.
  split; [apply files_removeFile|].
  split; [intros x; rewrite files_removeFile, list_elem_of_filter; tauto|].
  split; [rewrite files_removeFile; apply sublist_filter|].
  split; [intros x Hx; by rewrite (Hids x Hx)|].
  intros x y Hx Hy Hn Hs Hl.
  assert (id x = id y) as Hxy.
  { rewrite (Hids x Hx), (Hids y Hy). unfold file_id. by rewrite Hn, Hs, Hl. }
  split; [done|].
  rewrite files_removeFile, !list_elem_of_filter. split; intros [Hne _]; congruence.
Qed.

(** ** Where the page departs from its specification *)

(** C1. Two clicks on the render button before the first start is answered
    send two start requests. The first answer installs the poll of [r1], a
    tick sends a status fetch for [r1], and the second answer makes [r2] the
    current render and clears the timer of [r1]. The fetch for [r1] is still
    in flight, and its answer is applied: the page then shows [processing],
    40 percent, for the render [r2], which was never polled. When the late
    answer is terminal it also stops the timer of [r2]. *)
Theorem stale_poll_response_is_applied (f : File) :
  renderId (ui (run (render_running_twice f) init)) = Js.Str "r2"
  ∧ renderStatus (ui (run (render_running_twice f) init)) = Js.Str "queued"
  ∧ renderPct (ui (run (render_running_twice f) init)) = Js.Num 0
  ∧ poll_inflight (net (run (render_running_twice f) init)) = [Js.Str "r1"]
  ∧ timers (browser (run (render_running_twice f) init)) !! 1%positive = None
  ∧ timers (browser (run (render_running_twice f) init)) !! 2%positive
    = Some {| period := 500; target := Js.Str "r2" |}
  ∧ renderId (ui (run (render_running_twice f
                       ++ [PollSettled 0 (status_is "processing" 40)]) init))
    = Js.Str "r2"
  ∧ renderStatus (ui (run (render_running_twice f
                           ++ [PollSettled 0 (status_is "processing" 40)]) init))
    = Js.Str "processing"
  ∧ renderPct (ui (run (render_running_twice f
                        ++ [PollSettled 0 (status_is "processing" 40)]) init))
    = Js.Num 40
  ∧ renderStatus (ui (run (render_running_twice f
                           ++ [PollSettled 0 (status_done 100 "/dl/r1.mp4")]) init))
    = Js.Str "done"
  ∧ timers (browser (run (render_running_twice f
                          ++ [PollSettled 0 (status_done 100 "/dl/r1.mp4")]) init))
      !! 2%positive = None.
Proof. repeat split; reflexivity. Qed.

(** C7. The poll loop of a render is stopped by an answer that is not its
    own. After two clicks on the render button the timer of [r2] is live and
    the one fetch in flight was sent for [r1]; no status of [r2] was ever
    asked for. The answer [done] to that fetch clears the timer of [r2]:
    [pollRef] is empty, the tick that was due next sends nothing, and the
    render [r2] is never polled. *)
Theorem poll_loop_stopped_by_stale_answer (f : File) :
  renderId (ui (run (render_running_twice f) init)) = Js.Str "r2"
  ∧ timers (browser (run (render_running_twice f) init)) !! 2%positive
    = Some {| period := 500; target := Js.Str "r2" |}
  ∧ poll_inflight (net (run (render_running_twice f) init)) = [Js.Str "r1"]
  ∧ renderId (ui (run (render_running_twice f
                       ++ [PollSettled 0 (status_done 100 "/dl/r1.mp4")]) init))
    = Js.Str "r2"
  ∧ pollRef (run (render_running_twice f
                  ++ [PollSettled 0 (status_done 100 "/dl/r1.mp4")]) init) = None
  ∧ timers (browser (run (render_running_twice f
                          ++ [PollSettled 0 (status_done 100 "/dl/r1.mp4")]) init))
      !! 2%positive = None
  ∧ poll_inflight (net (run (render_running_twice f
                             ++ [PollSettled 0 (status_done 100 "/dl/r1.mp4"); Tick 2])
                            init)) = []
  ∧ run (render_running_twice f
         ++ [PollSettled 0 (status_done 100 "/dl/r1.mp4"); Tick 2]) init
    = run (render_running_twice f
           ++ [PollSettled 0 (status_done 100 "/dl/r1.mp4")]) init.
Proof. repeat split; reflexivity. Qed.

(** C2. The URL of a staged file is not revoked exactly once. Every drop
    revokes the URLs of all files staged before it, which stay staged;
    [clearAll] revokes every staged URL twice, once itself and once more
    through the effect cleanup that the change of [files] triggers. So one
    file dropped and cleared has its URL revoked twice, and a file is revoked
    as soon as a second one is dropped, and again at unmount. The URLs created
    for files that the cap cuts off are never revoked: after two drops of 13
    files and a clear, the set is empty and one URL is outstanding. *)
Theorem preview_url_not_released_exactly_once
    (w : World) (accepted : list File) (f g : File) :
  url_revoked (browser (onDrop accepted w))
  = reverse (previewUrl <$> files (ui w)) ++ url_revoked (browser w)
  ∧ url_revoked (browser (clearAll w))
    = reverse (previewUrl <$> files (ui w))
      ++ reverse (previewUrl <$> files (ui w)) ++ url_revoked (browser w)
  ∧ url_revoked (browser (run [Drop [f]; Clear] init)) = [0; 0]
  ∧ files (ui (run [Drop [f]; Clear] init)) = []
  ∧ files (ui (run [Drop [f]; Drop [g]] init))
    = [ {| file := f; previewUrl := 0; id := file_id f |};
        {| file := g; previewUrl := 1; id := file_id g |} ]
  ∧ url_revoked (browser (run [Drop [f]; Drop [g]] init)) = [0]
  ∧ url_revoked (browser (run [Drop [f]; Drop [g]; Unmount] init)) = [1; 0; 0]
  ∧ files (ui (run [Drop (replicate 13 f); Drop (replicate 13 g); Clear] init)) = []
  ∧ outstanding (run [Drop (replicate 13 f); Drop (replicate 13 g); Clear] init)
    = [25].
Proof.
  split; [|split]; [| |repeat split; reflexivity].
  - handlers. rewrite revokeAll_revoked. reflexivity.
  - handlers. rewrite revokeAll_revoked. projections.
    rewrite revokeAll_revoked, revokeAll_ui. reflexivity.
Qed.

(** C3. [removeFile] changes the staging set and nothing else of the exposed
    state, so the job of an earlier upload and the results of an earlier
    render survive the removal: after two files are uploaded and one of them
    is removed, the job is still there. *)
Theorem removeFile_keeps_job_and_render (i : string) (w : World) :
  job (ui (removeFile i w)) = job (ui w)
  ∧ renderId (ui (removeFile i w)) = renderId (ui w)
  ∧ renderStatus (ui (removeFile i w)) = renderStatus (ui w)
  ∧ renderPct (ui (removeFile i w)) = renderPct (ui w)
  ∧ renderErr (ui (removeFile i w)) = renderErr (ui w)
  ∧ downloadUrl (ui (removeFile i w)) = downloadUrl (ui w)
  ∧ files (ui (run [HealthSettled health_ok; Drop [photo; other_photo];
                    ClickUpload; UploadLoad 200 upload_ok;
                    Remove (file_id other_photo)] init))
    = [ {| file := photo; previewUrl := 0; id := file_id photo |} ]
  ∧ job (ui (run [HealthSettled health_ok; Drop [photo; other_photo];
                  ClickUpload; UploadLoad 200 upload_ok;
                  Remove (file_id other_photo)] init)) = upload_ok.
Proof.
  repeat split; try (handlers; frames; done).
Qed.

Lemma unmount_stops_timer (w : World) :
  one_poll_loop w -> timers (browser (unmount w)) = ∅.
Proof.
  intros Hw. pose proof (clearPoll_empty w Hw) as Hempty. revert Hempty.
  unfold unmount, andThen, set_mounted, clearPoll. rewrite revokeAll_pollRef.
  destruct (pollRef w); cbn; by rewrite ?revokeAll_timers.
Qed.

Lemma revokeAll_logs (fs : list StagedFile) (w : World) (x : StagedFile) :
  x ∈ fs -> previewUrl x ∈ url_revoked (browser (revokeAll fs w)).
Proof.
  intros Hx. rewrite revokeAll_revoked, elem_of_app, elem_of_reverse.
  left. by apply list_elem_of_fmap_2.
Qed.

(** C6, as the page has it. The Clear button is enabled only on a mounted
    page with a non-empty staging set, no upload running and a render status
    that is neither [queued] nor [processing]; otherwise the clear action
    changes nothing. When it is enabled, the clear action returns the page to
    idle (empty staging set, no job, no render id, status, download location
    or error text, both percentages 0, no upload running) and revokes the
    preview URL of every staged file. Tearing down the mounted component,
    after any history, leaves no poll timer. *)
Theorem clear_returns_to_idle (w : World) (evs : list Event) :
  (clear_enabled (ui w) = false -> step Clear w = w)
  ∧ (mounted w = true ->
     clear_enabled (ui w) = true ->
     files (ui (step Clear w)) = []
     ∧ isUploading (ui (step Clear w)) = false
     ∧ job (ui (step Clear w)) = Js.Null
     ∧ renderId (ui (step Clear w)) = Js.Null
     ∧ renderStatus (ui (step Clear w)) = Js.Null
     ∧ downloadUrl (ui (step Clear w)) = ""
     ∧ uploadError (ui (step Clear w)) = ""
     ∧ renderErr (ui (step Clear w)) = Js.Str ""
     ∧ uploadPct (ui (step Clear w)) = 0%Z
     ∧ renderPct (ui (step Clear w)) = Js.Num 0
     ∧ forall x, x ∈ files (ui w) ->
                 previewUrl x ∈ url_revoked (browser (step Clear w)))
  ∧ (mounted (run evs init) = true ->
     timers (browser (step Unmount (run evs init))) = ∅).
Proof.
  split; [|split].
  - intros Hoff. unfold step, user. by rewrite Hoff, andb_false_r.
  - intros Hm Hon.
    assert (isUploading (ui w) = false) as Hup.
    { unfold clear_enabled in Hon.
      apply andb_prop in Hon as [_ Hon]. apply negb_true_iff in Hon.
      by apply orb_false_elim in Hon as [? _]. }
    unfold step, user. rewrite Hm, Hon. cbn [andb].
    repeat split; try (handlers; frames; done).
    intros x Hx. handlers. frames.
    by apply revokeAll_logs.
  - intros Hm. unfold step, user. rewrite Hm. cbn [andb].
    apply unmount_stops_timer, one_poll_loop_run.
Qed.

(** ** More on the upload *)

Lemma upload_enabled_inv (s : State) :
  upload_enabled s = true ->
  apiOnline s = Some true ∧ isUploading s = false ∧ files s ≠ [].
Proof.
  unfold upload_enabled, toolbar_shown. intros H.
  apply andb_prop in H as [Hshown H]. apply negb_true_iff in H.
  apply orb_false_elim in H as [H Hon]. apply orb_false_elim in H as [Hup _].
  apply negb_false_iff in Hon. apply negb_true_iff, Nat.eqb_neq in Hshown.
  split; [|split]; [|done|].
  - destruct (apiOnline s) as [[]|]; done.
  - intros E. by rewrite E in Hshown.
Qed.

Lemma upload_discipline_step (ev : Event) (w : World) :
  single_upload w -> upload_discipline w -> upload_discipline (step ev w).
Proof.
  unfold single_upload, upload_discipline.
  intros (Hle & _ & Hflag) (Herr & Hon & Hping).
  assert (upload_inflight (net w) = 0 ∨ upload_inflight (net w) = 1) as E by lia.
  pose proof (upload_enabled_inv (ui w)) as Hen.
  destruct ev; handlers; frames; branches; frames;
    repeat match goal with
           | H : (_ =? _)%nat = true |- _ => apply Nat.eqb_eq in H
           | H : (_ =? _)%nat = false |- _ => apply Nat.eqb_neq in H
           | H : _ || _ = false |- _ => apply orb_false_elim in H as [? ?]
           | H : _ && _ = true |- _ => apply andb_prop in H as [? ?]
           end;
    try (destruct Hen as (? & ? & ?); [done|]);
    (split; [|split]); intros;
    first [ done | congruence | lia | solve [eauto 3] | (exfalso; lia)
          | (destruct E as [E|E];
             [lia | exfalso; apply Hflag in E; [congruence | done]])
          | (exfalso;
             match goal with
             | H : _ = 1 |- _ => apply Hon, Hping in H; congruence
             end) ].
Qed.

Lemma upload_invariants_run (evs : list Event) :
  single_upload (run evs init) ∧ upload_discipline (run evs init).
Proof.
  apply (run_invariant (fun w => single_upload w ∧ upload_discipline w)).
  - split; [apply (single_upload_run [])|].
    unfold upload_discipline; cbn. repeat split; intros; done.
  - intros ev w [Hs Hd]. split;
      [by apply single_upload_step | by apply upload_discipline_step].
Qed.

(** X1. After any history at most one upload is in flight, and while one
    is, the mounted page has [isUploading] set. A click on Upload while the
    flag is set changes nothing, so no second request goes out; and the flag
    is not a record of a request: after an answer whose [detail] cannot be
    printed it stays set with nothing in flight. *)
Theorem upload_is_single_flight (evs : list Event) :
  upload_inflight (net (run evs init)) <= 1
  ∧ (mounted (run evs init) = true ->
     upload_inflight (net (run evs init)) = 1 ->
     isUploading (ui (run evs init)) = true)
  ∧ (isUploading (ui (run evs init)) = true ->
     step ClickUpload (run evs init) = run evs init)
  ∧ (forall f,
       isUploading (ui (run [HealthSettled health_ok; Drop [f]; ClickUpload;
                             UploadLoad 500 refused_unprintable] init)) = true
       ∧ upload_inflight (net (run [HealthSettled health_ok; Drop [f]; ClickUpload;
                                    UploadLoad 500 refused_unprintable] init)) = 0).
Proof.
  destruct (upload_invariants_run evs) as [(Hle & _ & Hflag) _].
  split; [done|]. split; [done|]. split.
  - intros Hup. unfold step, user, upload_enabled.
    rewrite Hup, andb_false_r. cbn. by rewrite andb_false_r.
  - intros f. split; reflexivity.
Qed.

Lemma upload_fulfilled (w : World) (o : Settled) (resp : Js.value) :
  mounted w = true ->
  o = Fulfilled resp ->
  job (ui ((upload_done >>> detached (handleUpload_settled o)) w)) = resp
  ∧ isUploading (ui ((upload_done >>> detached (handleUpload_settled o)) w)) = false
  ∧ uploadPct (ui ((upload_done >>> detached (handleUpload_settled o)) w)) = 100%Z
  ∧ files (ui ((upload_done >>> detached (handleUpload_settled o)) w)) = files (ui w)
  ∧ uploadError (ui ((upload_done >>> detached (handleUpload_settled o)) w))
    = uploadError (ui w)
  ∧ upload_inflight (net ((upload_done >>> detached (handleUpload_settled o)) w))
    = pred (upload_inflight (net w)).
Proof.
  intros Hm ->. handlers. by rewrite Hm.
Qed.

(** X2. An upload in flight on the mounted page, after any history. When it
    is answered with a status in 200..299 the parsed body becomes the job
    ([null] when the body was not JSON), the progress is set to 100,
    [isUploading] is reset, no error text is shown, the staging set is as it
    was, and no upload is in flight any more. *)
Theorem upload_success_records_job
    (evs : list Event) (status : Z) (response : Js.value) :
  mounted (run evs init) = true ->
  upload_inflight (net (run evs init)) ≠ 0 ->
  Api.ok status = true ->
  job (ui (step (UploadLoad status response) (run evs init))) = response
  ∧ uploadPct (ui (step (UploadLoad status response) (run evs init))) = 100%Z
  ∧ isUploading (ui (step (UploadLoad status response) (run evs init))) = false
  ∧ uploadError (ui (step (UploadLoad status response) (run evs init))) = ""
  ∧ files (ui (step (UploadLoad status response) (run evs init)))
    = files (ui (run evs init))
  ∧ upload_inflight (net (step (UploadLoad status response) (run evs init))) = 0.
Proof.
  intros Hm Hn Hok.
  destruct (upload_invariants_run evs) as [(Hle & _) (Herr & _)].
  assert (upload_inflight (net (run evs init)) = 1) as Hone by lia.
  rewrite (step_UploadLoad status response (Fulfilled response)); [|done|].
  - edestruct (upload_fulfilled (run evs init)) as (-> & -> & -> & -> & -> & ->);
      [done | reflexivity |].
    rewrite (Herr Hone), Hone. done.
  - unfold Api.uploadFiles_onload. by rewrite Hok.
Qed.

Lemma str_or_not_empty (s fallback : string) :
  fallback ≠ "" -> Js.str_or s fallback ≠ "".
Proof.
  intros Hf. unfold Js.str_or.
  destruct (String.eqb_spec s "") as [E|E]; done.
Qed.

(** X3. An upload in flight on the mounted page is answered with a status
    outside 200..299. When the [detail] of the body is falsy or can be
    printed (a string, a number, an array of such, a plain object),
    [uploadError] is not empty afterwards, even if the [detail] prints as the
    empty string, the progress is back at 0 and [isUploading] is reset. When
    the [detail] is truthy and cannot be printed, the handler of the answer
    throws and the upload never settles: the page is as it was, with
    [isUploading] unchanged and no upload in flight. After a transport
    failure [uploadError] is not empty, the progress is 0 and [isUploading]
    is reset. *)
Theorem upload_failure_always_shows_text
    (w : World) (status : Z) (response : Js.value) :
  mounted w = true ->
  upload_inflight (net w) ≠ 0 ->
  Api.ok status = false ->
  (Js.prints (Js.get_opt response "detail") = true ->
   uploadError (ui (step (UploadLoad status response) w)) ≠ ""
   ∧ uploadPct (ui (step (UploadLoad status response) w)) = 0%Z
   ∧ isUploading (ui (step (UploadLoad status response) w)) = false)
  ∧ (Js.prints (Js.get_opt response "detail") = false ->
     ui (step (UploadLoad status response) w) = ui w
     ∧ upload_inflight (net (step (UploadLoad status response) w))
       = pred (upload_inflight (net w)))
  ∧ uploadError (ui (step UploadNetError w)) ≠ ""
  ∧ uploadPct (ui (step UploadNetError w)) = 0%Z
  ∧ isUploading (ui (step UploadNetError w)) = false.
Proof.
  intros Hm Hn Hok.
  pose proof (uploadFiles_onload_refused status response Hok) as Hload.
  unfold Js.or_else, Js.ToString in Hload.
  pose proof (prints_falsy (Js.get_opt response "detail")) as Hfalsy.
  split; [|split].
  - intros Hprints.
    destruct (Js.truthy (Js.get_opt response "detail"));
      [rewrite Hprints in Hload | cbn in Hload];
      rewrite (step_UploadLoad _ _ _ w Hn Hload);
      (edestruct (upload_rejected w) as (_ & -> & -> & _ & ->);
         [done | reflexivity |]);
      repeat split; by apply str_or_not_empty.
  - intros Hprints.
    destruct (Js.truthy (Js.get_opt response "detail"));
      [|rewrite Hfalsy in Hprints; done].
    rewrite Hprints in Hload.
    rewrite (step_UploadLoad_pending _ _ w Hn Hload). by handlers.
  - rewrite step_UploadNetError by done.
    edestruct (upload_rejected w Api.uploadFiles_onerror) as (_ & -> & -> & _ & ->);
      [done | reflexivity |].
    repeat split; by apply str_or_not_empty.
Qed.

(** X4. Uploads wait for the health check. After any history an upload is
    in flight only if the page has seen the API online; and on any page that
    has not, a click on Upload changes nothing. *)
Theorem upload_needs_api_online (evs : list Event) (w : World) :
  (upload_inflight (net (run evs init)) ≠ 0 ->
   apiOnline (ui (run evs init)) = Some true)
  ∧ (apiOnline (ui w) ≠ Some true -> step ClickUpload w = w).
Proof.
  split.
  - intros Hn.
    destruct (upload_invariants_run evs) as [(Hle & _) (_ & Hon & _)].
    apply Hon. lia.
  - intros Hoff. unfold step, user.
    destruct (upload_enabled (ui w)) eqn:Hen; [|by rewrite andb_false_r].
    by apply upload_enabled_inv in Hen as (? & _).
Qed.

(** X5. A click on the enabled Upload button, after any history: exactly
    one request goes out, and the form it sends carries the files of the
    staged entries in their order, at least one and at most 25 of them; the
    staging set itself is kept; the job, the render id and status and the
    download location of earlier runs are dropped, the progress is 0 and
    [isUploading] is set. *)
Theorem upload_click_sends_staged_files (evs : list Event) :
  mounted (run evs init) = true ->
  upload_enabled (ui (run evs init)) = true ->
  upload_inflight (net (step ClickUpload (run evs init))) = 1
  ∧ upload_forms (net (step ClickUpload (run evs init)))
    = upload_forms (net (run evs init)) ++ [file <$> files (ui (run evs init))]
  ∧ 1 <= length (file <$> files (ui (run evs init))) <= 25
  ∧ files (ui (step ClickUpload (run evs init))) = files (ui (run evs init))
  ∧ isUploading (ui (step ClickUpload (run evs init))) = true
  ∧ uploadPct (ui (step ClickUpload (run evs init))) = 0%Z
  ∧ uploadError (ui (step ClickUpload (run evs init))) = ""
  ∧ job (ui (step ClickUpload (run evs init))) = Js.Null
  ∧ renderId (ui (step ClickUpload (run evs init))) = Js.Null
  ∧ renderStatus (ui (step ClickUpload (run evs init))) = Js.Null
  ∧ downloadUrl (ui (step ClickUpload (run evs init))) = "".
Proof.
  intros Hm Hen.
  pose proof (cap_run evs) as Hcap.
  destruct (upload_invariants_run evs) as [(Hle & _ & Hflag) _].
  destruct (upload_enabled_inv _ Hen) as (_ & Hup & Hfiles).
  assert (upload_inflight (net (run evs init)) = 0) as Hzero.
  { destruct (decide (upload_inflight (net (run evs init)) = 0)) as [|Hne]; [done|].
    assert (upload_inflight (net (run evs init)) = 1) as Hone by lia.
    rewrite (Hflag Hm Hone) in Hup. done. }
  assert (length (files (ui (run evs init))) ≠ 0) as Hlen
    by (destruct (files (ui (run evs init))); done).
  apply Nat.eqb_neq in Hlen.
  unfold step, user, handleUpload. rewrite Hm, Hen, Hlen, Hup. cbn [andb orb].
  rewrite length_fmap.
  apply Nat.eqb_neq in Hlen.
  repeat split; try (handlers; unfold uploadFiles_form; done); try lia.
  handlers. by rewrite Hzero.
Qed.

(** ** The health check *)

Lemma health_step (ev : Event) (w : World) :
  health_inflight (net w) = false ->
  health_inflight (net (step ev w)) = false
  ∧ apiOnline (ui (step ev w)) = apiOnline (ui w).
Proof.
  intros Hw.
  destruct ev; handlers; frames; branches; frames; by simplify_eq.
Qed.

(** X6. The answer to the health ping on the mounted page: the API counts
    as online exactly when the status is in 200..299 and the body is JSON with
    [status] equal to the string [ok]; a network failure, another status, a
    body that is not JSON or that says anything else all give offline. Either
    way the badge leaves [null] and the ping is over. *)
Theorem health_answer_sets_badge (w : World) (res : Http) :
  mounted w = true ->
  health_inflight (net w) = true ->
  apiOnline (ui (step (HealthSettled res) w))
  = Some match res with
         | Response status (Json data) =>
             Api.ok status && Js.is_str (Js.get_opt data "status") "ok"
         | _ => false
         end
  ∧ health_inflight (net (step (HealthSettled res) w)) = false.
Proof.
  intros Hm Hh. unfold step. rewrite Hh.
  destruct res as [m|status [data|m]]; cbn [Api.pingHealth];
    try destruct (Api.ok status); handlers; by rewrite Hm.
Qed.

(** X7. The health check happens once. When the ping is no longer in
    flight no event changes [apiOnline] again: a page that found the API
    offline keeps the Upload button disabled whatever happens next. *)
Theorem health_is_checked_once (w : World) (evs : list Event) :
  health_inflight (net w) = false ->
  apiOnline (ui (run evs w)) = apiOnline (ui w)
  ∧ (apiOnline (ui w) ≠ Some true ->
     upload_inflight (net (run (evs ++ [ClickUpload]) w))
     = upload_inflight (net (run evs w))).
Proof.
  intros Hw.
  assert (health_inflight (net (run evs w)) = false
          ∧ apiOnline (ui (run evs w)) = apiOnline (ui w)) as [Hh Ha].
  { revert w Hw. induction evs as [|ev evs IH]; intros w Hw; [done|].
    rewrite run_cons. destruct (health_step ev w Hw) as [Hh Ha].
    destruct (IH _ Hh) as [Hh' Ha']. split; [done | congruence]. }
  split; [done|]. intros Hoff. rewrite run_snoc.
  assert (step ClickUpload (run evs w) = run evs w) as ->; [|done].
  unfold step, user.
  destruct (upload_enabled (ui (run evs w))) eqn:Hen; [|by rewrite andb_false_r].
  apply upload_enabled_inv in Hen as (Hon & _). congruence.
Qed.

(** ** Starting a render *)

Lemma starts_have_job_step (ev : Event) (w : World) :
  starts_have_job w -> starts_have_job (step ev w).
Proof.
  unfold starts_have_job. intros Hw.
  destruct ev; handlers; frames; branches; frames; try done;
    try by apply Forall_delete.
  apply Forall_app. split; [done|]. apply Forall_singleton.
  repeat match goal with
         | H : _ || _ = false |- _ => apply orb_false_elim in H as [H ?]
         end.
  by apply negb_false_iff.
Qed.

(** X8. A render is only ever requested for a job: after any history every
    render start in flight was sent with a truthy [job_id], and on a page
    whose job has none (no job, a job that is [null] because the upload was
    answered without JSON, a job without the field) a click on Render changes
    nothing. *)
Theorem render_start_needs_job (evs : list Event) (w : World) :
  Forall (fun j => Js.truthy j = true) (start_inflight (net (run evs init)))
  ∧ (Js.truthy (Js.get_opt (job (ui w)) "job_id") = false ->
     step ClickStartRender w = w).
Proof.
  split.
  - apply (run_invariant starts_have_job); [by constructor|].
    apply starts_have_job_step.
  - intros Hjob. unfold step, user, render_enabled.
    rewrite Hjob. cbn. by rewrite !andb_false_r.
Qed.

Lemma step_StartSettled (k : nat) (res : Http) (w : World) (q : Js.value) :
  start_inflight (net w) !! k = Some q ->
  step (StartSettled k res) w
  = (start_done k >>> detached (handleStartRender_settled (Api.startRender res))) w.
Proof. intros Hq. unfold step. by rewrite Hq. Qed.

(** X9. A render start that fails, on the mounted page. After a status
    outside 200..299 the error shown is [Render start failed], whatever the
    body; after a network failure it is the engine's message, or
    [Could not start render] when that is empty. In both cases the render id,
    the render status, [pollRef] and the timers are as before, so no poll loop
    is started and the Render button is as enabled as it was. *)
Theorem render_start_failure_is_shown
    (w : World) (k : nat) (q : Js.value) (status : Z) (body : Body)
    (message : string) :
  mounted w = true ->
  start_inflight (net w) !! k = Some q ->
  Api.ok status = false ->
  renderErr (ui (step (StartSettled k (Response status body)) w))
  = Js.Str "Render start failed"
  ∧ renderErr (ui (step (StartSettled k (NetworkError message)) w))
    = Js.Str (Js.str_or message "Could not start render")
  ∧ renderErr (ui (step (StartSettled k (NetworkError message)) w)) ≠ Js.Str ""
  ∧ (forall res,
       res = Response status body ∨ res = NetworkError message ->
       renderId (ui (step (StartSettled k res) w)) = renderId (ui w)
       ∧ renderStatus (ui (step (StartSettled k res) w)) = renderStatus (ui w)
       ∧ pollRef (step (StartSettled k res) w) = pollRef w
       ∧ timers (browser (step (StartSettled k res) w)) = timers (browser w)
       ∧ render_enabled (ui (step (StartSettled k res) w)) = render_enabled (ui w)
       ∧ start_inflight (net (step (StartSettled k res) w))
         = delete k (start_inflight (net w))).
Proof.
  intros Hm Hq Hok.
  rewrite !(step_StartSettled k _ w q Hq).
  unfold Api.startRender, Api.fetch_json. rewrite Hok.
  split; [|split; [|split]].
  - handlers. by rewrite Hm.
  - handlers. by rewrite Hm.
  - handlers. rewrite Hm. projections.
    intros [= E]. by eapply str_or_not_empty, E.
  - intros res [-> | ->]; rewrite (step_StartSettled k _ w q Hq);
      unfold Api.startRender, Api.fetch_json; rewrite ?Hok;
      handlers; rewrite Hm; done.
Qed.

(** X10. A render start that succeeds, on the mounted page: the render id
    is the answer's [render_id] and the status the answer's [status], or
    [queued] when the answer names none (missing, [null] or empty). With a
    status of [queued] or [processing] the Clear, Remove and Render buttons
    are disabled from then on. *)
Theorem render_start_success_sets_status
    (w : World) (k : nat) (q r rid : Js.value) (res : Http) :
  mounted w = true ->
  start_inflight (net w) !! k = Some q ->
  Api.startRender res = Fulfilled r ->
  Js.get r "render_id" = Some rid ->
  renderId (ui (step (StartSettled k res) w)) = rid
  ∧ renderStatus (ui (step (StartSettled k res) w))
    = (if Js.truthy (Js.get_opt r "status") then Js.get_opt r "status"
       else Js.Str "queued")
  ∧ (rendering (ui (step (StartSettled k res) w)) = true ->
     clear_enabled (ui (step (StartSettled k res) w)) = false
     ∧ render_enabled (ui (step (StartSettled k res) w)) = false
     ∧ forall i, remove_enabled i (ui (step (StartSettled k res) w)) = false).
Proof.
  intros Hm Hq Hr Hrid.
  rewrite (step_StartSettled k _ w q Hq), Hr.
  unfold andThen, detached, handleStartRender_settled. rewrite Hrid.
  split; [|split].
  - handlers. rewrite Hm. branches; done.
  - handlers. rewrite Hm. unfold Js.or_else. branches; done.
  - intros Hbusy. unfold clear_enabled, render_enabled, remove_enabled.
    repeat split; intros; rewrite Hbusy, ?orb_true_r; cbn [negb];
      apply andb_false_r.
Qed.

(** X11. While a render is queued or processing, or an upload is running,
    the page refuses to clear the staging set or to remove a file; while a
    render is queued or processing it refuses to start another. *)
Theorem busy_page_refuses_edits (w : World) (i : string) :
  (isUploading (ui w) || rendering (ui w) = true ->
   step Clear w = w ∧ step (Remove i) w = w)
  ∧ (rendering (ui w) = true -> step ClickStartRender w = w).
Proof.
  split.
  - intros Hbusy. unfold step, user, clear_enabled, remove_enabled.
    by rewrite Hbusy, !andb_false_r.
  - intros Hbusy. unfold step, user, render_enabled.
    by rewrite Hbusy, orb_true_r, !andb_false_r.
Qed.

(** ** Applying a status answer *)

(** X12. A status answer that parsed to a value other than [null] is
    applied field by field, whatever it holds. The status shown is the
    answer's [status], [undefined] included; a progress that is missing or
    [null] shows as 0; a download location that is missing or empty leaves
    the one shown before. When the download location cannot be printed the
    callback ends after the status and the progress: the location and the
    error text shown, [pollRef] and the timers are as before, even under a
    status [done] or [error]. Otherwise the error text is touched only by an
    answer with status [done] or [error] that carries an error, which then is
    the text. The render id, the job and the staging set are never
    touched. *)
Theorem poll_answer_applied_by_field (w : World) (s status : Js.value) :
  Js.get s "status" = Some status ->
  renderStatus (ui (poll_settled (Fulfilled s) w)) = status
  ∧ renderPct (ui (poll_settled (Fulfilled s) w))
    = match Js.get_opt s "progress" with
      | Js.Undefined | Js.Null => Js.Num 0
      | progress => progress
      end
  ∧ (Js.truthy (Js.get_opt s "download_url") = false ->
     downloadUrl (ui (poll_settled (Fulfilled s) w)) = downloadUrl (ui w))
  ∧ (Js.prints (Js.get_opt s "download_url") = false ->
     downloadUrl (ui (poll_settled (Fulfilled s) w)) = downloadUrl (ui w)
     ∧ renderErr (ui (poll_settled (Fulfilled s) w)) = renderErr (ui w)
     ∧ pollRef (poll_settled (Fulfilled s) w) = pollRef w
     ∧ browser (poll_settled (Fulfilled s) w) = browser w)
  ∧ (Js.prints (Js.get_opt s "download_url") = true ->
     renderErr (ui (poll_settled (Fulfilled s) w))
     = (if (Js.is_str status "done" || Js.is_str status "error")
           && Js.truthy (Js.get_opt s "error")
        then Js.get_opt s "error"
        else renderErr (ui w)))
  ∧ renderId (ui (poll_settled (Fulfilled s) w)) = renderId (ui w)
  ∧ job (ui (poll_settled (Fulfilled s) w)) = job (ui w)
  ∧ files (ui (poll_settled (Fulfilled s) w)) = files (ui w).
Proof.
  intros Hst. unfold poll_settled. rewrite Hst.
  pose proof (prints_falsy (Js.get_opt s "download_url")) as Hfalsy.
  unfold Js.ToString.
  destruct (Js.prints (Js.get_opt s "download_url"));
    destruct (Js.truthy (Js.get_opt s "download_url"));
    try (specialize (Hfalsy eq_refl); discriminate);
    repeat split; try intros Hurl; try discriminate;
    handlers; unfold Js.nullish; branches; done.
Qed.

Lemma downloadUrl_step (ev : Event) (w : World) :
  downloadUrl (ui (step ev w)) = downloadUrl (ui w)
  ∨ downloadUrl (ui (step ev w)) = ""
  ∨ exists path, downloadUrl (ui (step ev w)) = API_URL +:+ path.
Proof.
  destruct ev; handlers; unfold Js.ToString; frames; branches; frames; eauto.
Qed.

(** X13. After any history the download location on show is either empty
    or the base address followed by something: no bare path from the server is
    ever exposed. *)
Theorem download_location_always_qualified (evs : list Event) :
  downloadUrl (ui (run evs init)) = ""
  ∨ exists path, downloadUrl (ui (run evs init)) = API_URL +:+ path.
Proof.
  apply (run_invariant location_qualified); [by left|].
  unfold location_qualified. intros ev w Hw.
  destruct (downloadUrl_step ev w) as [-> | [-> | Hq]]; eauto.
Qed.

(** ** The preview URLs *)

Lemma revokeAll_url_next (fs : list StagedFile) (w : World) :
  url_next (browser (revokeAll fs w)) = url_next (browser w).
Proof. apply revokeAll_frame. Qed.

(** What an event does to the object-URL store: only a drop creates URLs,
    one per accepted file; a drop, a removal and an unmount revoke the URL of
    every file staged before them, a clear revokes each twice. *)
Lemma store_step (ev : Event) (w : World) :
  url_next (browser (step ev w))
  = url_next (browser w)
    + match ev with
      | Drop accepted => if mounted w then length accepted else 0
      | _ => 0
      end
  ∧ url_revoked (browser (step ev w))
    = match ev with
      | Drop _ | Unmount =>
          if mounted w then reverse (previewUrl <$> files (ui w)) else []
      | Remove i =>
          if mounted w && remove_enabled i (ui w)
          then reverse (previewUrl <$> files (ui w)) else []
      | Clear =>
          if mounted w && clear_enabled (ui w)
          then reverse (previewUrl <$> files (ui w))
               ++ reverse (previewUrl <$> files (ui w))
          else []
      | _ => []
      end ++ url_revoked (browser w).
Proof.
  destruct ev; handlers; rewrite ?andb_true_r; branches; split;
    repeat (first [ rewrite revokeAll_revoked | rewrite revokeAll_url_next
                  | rewrite revokeAll_ui ];
            projections);
    rewrite <- ?app_assoc; first [done | lia].
Qed.

Lemma fmap_sublist {A B : Type} (f : A -> B) (l k : list A) :
  l `sublist_of` k -> f <$> l `sublist_of` f <$> k.
Proof.
  induction 1 as [|x l k _ IH|x l k _ IH]; cbn;
    [constructor | by apply sublist_skip | by apply sublist_cons].
Qed.

Lemma NoDup_sublist_of {A : Type} (l k : list A) :
  l `sublist_of` k -> NoDup k -> NoDup l.
Proof. intros Hs Hk. by eapply sublist_NoDup. Qed.

Lemma Forall_sublist_of {A : Type} (P : A -> Prop) (l k : list A) :
  l `sublist_of` k -> Forall P k -> Forall P l.
Proof.
  intros Hs Hk. rewrite Forall_forall in *.
  intros x Hx. eapply Hk, elem_of_sublist; done.
Qed.

Lemma length_stage (accepted : list File) (next : nat) :
  length (stage accepted next) = length accepted.
Proof.
  revert next; induction accepted as [|f fs IH]; intros next; cbn;
    [done | by rewrite IH].
Qed.

Lemma filter_none {A : Type} (P : A -> Prop) `{forall x, Decision (P x)}
    (l : list A) :
  Forall (fun x => ¬ P x) l -> filter P l = [].
Proof.
  induction 1 as [|x l Hx _ IH]; [done|].
  by rewrite filter_cons_False.
Qed.

Lemma filter_all {A : Type} (P : A -> Prop) `{forall x, Decision (P x)}
    (l : list A) :
  Forall P l -> filter P l = l.
Proof.
  induction 1 as [|x l Hx _ IH]; [done|].
  by rewrite filter_cons_True, IH.
Qed.

Lemma stage_urls (accepted : list File) (next : nat) :
  previewUrl <$> stage accepted next = seq next (length accepted).
Proof.
  revert next; induction accepted as [|f fs IH]; intros next; [done|].
  cbn. by rewrite IH.
Qed.

Lemma stage_app (a b : list File) (next : nat) :
  stage (a ++ b) next = stage a next ++ stage b (next + length a).
Proof.
  revert next; induction a as [|f fs IH]; intros next; cbn.
  - by rewrite Nat.add_0_r.
  - rewrite IH. do 3 f_equal. lia.
Qed.

Lemma urls_in_order_step (ev : Event) (w : World) :
  urls_in_order w -> urls_in_order (step ev w).
Proof.
  unfold urls_in_order. intros (Hnd & Hst & Hrv).
  destruct (store_step ev w) as [Hnext Hlog].
  assert (Forall (fun u => u < url_next (browser (step ev w)))
            (previewUrl <$> files (ui w))) as Hst'
    by (eapply Forall_impl; [done | intros u Hu; cbn in Hu; lia]).
  assert (Forall (fun u => u < url_next (browser (step ev w)))
            (url_revoked (browser w))) as Hrv'
    by (eapply Forall_impl; [done | intros u Hu; cbn in Hu; lia]).
  assert (Forall (fun u => u < url_next (browser (step ev w)))
            (url_revoked (browser (step ev w)))) as Hrv''.
  { rewrite Hlog. apply Forall_app. split; [|done].
    destruct ev; try done;
      repeat match goal with
             | |- context [if ?c then _ else _] => destruct c
             end;
      rewrite ?Forall_app, ?Forall_reverse; done. }
  split; [|split; [|done]].
  - rewrite files_step. destruct ev; try done.
    + destruct (mounted w); [|done].
      eapply NoDup_sublist_of; [apply fmap_sublist, sublist_take|].
      rewrite fmap_app, stage_urls. apply NoDup_app. split; [done|].
      split; [|apply NoDup_seq].
      intros u Hu Hin. apply elem_of_seq in Hin.
      rewrite Forall_forall in Hst. specialize (Hst u Hu). cbn in Hst. lia.
    + destruct (mounted w && remove_enabled i (ui w)); [|done].
      eapply NoDup_sublist_of; [apply fmap_sublist, sublist_filter | done].
    + destruct (mounted w && clear_enabled (ui w)); [constructor | done].
  - rewrite files_step. destruct ev; try done.
    + destruct (mounted w); [|done].
      eapply Forall_sublist_of; [apply fmap_sublist, sublist_take|].
      rewrite fmap_app, stage_urls. apply Forall_app. split; [done|].
      apply Forall_forall. intros u Hin. apply elem_of_seq in Hin. lia.
    + destruct (mounted w && remove_enabled i (ui w)); [|done].
      eapply Forall_sublist_of; [apply fmap_sublist, sublist_filter | done].
    + destruct (mounted w && clear_enabled (ui w)); [constructor | done].
Qed.

(** X14. After any history the staged files have pairwise distinct preview
    URLs, each of them created by the store, and the page has only ever
    revoked URLs that the store created. *)
Theorem staged_preview_urls_distinct (evs : list Event) :
  NoDup (previewUrl <$> files (ui (run evs init)))
  ∧ Forall (fun u => u < url_next (browser (run evs init)))
           (previewUrl <$> files (ui (run evs init)))
  ∧ Forall (fun u => u < url_next (browser (run evs init)))
           (url_revoked (browser (run evs init))).
Proof.
  apply (run_invariant urls_in_order); [|apply urls_in_order_step].
  unfold urls_in_order; cbn. repeat split; constructor.
Qed.

Lemma no_leak_step (ev : Event) (w : World) :
  fits ev w = true -> no_leak w -> no_leak (step ev w).
Proof.
  unfold no_leak. intros Hfit Hw u.
  destruct (store_step ev w) as [-> ->]. rewrite files_step.
  destruct ev; rewrite ?Nat.add_0_r; cbn [app];
    try (intros Hu; apply (Hw u Hu)).
  - cbn in Hfit. apply bool_decide_eq_true in Hfit.
    destruct (mounted w); rewrite ?Nat.add_0_r; [|apply Hw].
    intros Hu. rewrite take_ge by (rewrite length_app, length_stage; lia).
    rewrite fmap_app, stage_urls, !elem_of_app, elem_of_reverse, elem_of_seq.
    destruct (decide (u < url_next (browser w))) as [Hlt|Hge].
    + destruct (Hw u Hlt); auto.
    + right. right. lia.
  - destruct (mounted w && remove_enabled i (ui w)); [|apply Hw].
    intros Hu. rewrite elem_of_app, elem_of_reverse.
    destruct (Hw u Hu); auto.
  - destruct (mounted w && clear_enabled (ui w)); [|apply Hw].
    intros Hu. rewrite !elem_of_app, elem_of_reverse.
    destruct (Hw u Hu); auto.
  - destruct (mounted w); [|apply Hw].
    intros Hu. rewrite elem_of_app, elem_of_reverse.
    destruct (Hw u Hu); auto.
Qed.

Lemma no_leak_run (evs : list Event) (w : World) :
  all_fit evs w = true -> no_leak w -> no_leak (run evs w).
Proof.
  revert w. induction evs as [|ev evs IH]; intros w Hfit Hw; [done|].
  cbn [all_fit] in Hfit. apply andb_prop in Hfit as [Hev Hrest].
  rewrite run_cons. by apply IH, no_leak_step.
Qed.

Lemma no_leak_outstanding (w : World) :
  no_leak w ->
  Forall (fun u => u ∈ url_revoked (browser w)) (previewUrl <$> files (ui w)) ->
  outstanding w = [].
Proof.
  unfold no_leak, outstanding. intros Hw Hall.
  apply filter_none, Forall_forall. intros u Hu.
  apply elem_of_seq in Hu. intros Hnot. apply Hnot.
  destruct (Hw u) as [|Hin]; [lia | done |].
  rewrite Forall_forall in Hall. by apply Hall.
Qed.

(** X15. No preview URL leaks as long as no drop overflows the cap. After
    a history in which every drop found room for all of its files, every URL
    the store created is still staged or has been revoked; so none is
    outstanding when the staging set is empty, and none after the component is
    torn down. *)
Theorem no_preview_url_leaks_within_cap (evs : list Event) :
  all_fit evs init = true ->
  (forall u, u < url_next (browser (run evs init)) ->
             u ∈ url_revoked (browser (run evs init))
             ∨ u ∈ previewUrl <$> files (ui (run evs init)))
  ∧ (files (ui (run evs init)) = [] -> outstanding (run evs init) = [])
  ∧ (mounted (run evs init) = true ->
     outstanding (step Unmount (run evs init)) = []).
Proof.
  intros Hfit.
  assert (no_leak (run evs init)) as Hleak.
  { apply no_leak_run; [done|]. intros u Hu. cbn in Hu. lia. }
  split; [done|]. split.
  - intros Hempty. apply no_leak_outstanding; [done|]. rewrite Hempty. constructor.
  - intros Hm. apply no_leak_outstanding.
    + by apply no_leak_step.
    + destruct (store_step Unmount (run evs init)) as [_ ->].
      rewrite files_step, Hm. apply Forall_forall. intros u Hu.
      by rewrite elem_of_app, elem_of_reverse; left.
Qed.

(** ** How staging operations compose *)

Lemma take_take_app {A : Type} (n : nat) (l k : list A) :
  take n (take n l ++ k) = take n (l ++ k).
Proof.
  destruct (decide (n <= length l)) as [Hle|Hgt].
  - rewrite (take_app_le l k) by done.
    rewrite take_app_le by (rewrite length_take; lia).
    by rewrite take_take, Nat.min_id.
  - by rewrite (take_ge l) by lia.
Qed.

Lemma url_next_onDrop (accepted : list File) (w : World) :
  url_next (browser (onDrop accepted w)) = url_next (browser w) + length accepted.
Proof. handlers. by rewrite revokeAll_url_next. Qed.

(** X16. Dropping files in two batches stages the same entries, with the
    same preview URLs, as dropping them in one: the cap cuts the same tail
    either way. *)
Theorem drops_compose (a b : list File) (w : World) :
  files (ui (onDrop b (onDrop a w))) = files (ui (onDrop (a ++ b) w))
  ∧ url_next (browser (onDrop b (onDrop a w)))
    = url_next (browser (onDrop (a ++ b) w)).
Proof.
  rewrite !files_onDrop, !url_next_onDrop, stage_app, length_app.
  split; [|lia]. by rewrite take_take_app, app_assoc.
Qed.

(** X17. Removals commute and repeat harmlessly: removing two identifiers
    in either order leaves the same staging set, and removing one identifier
    a second time changes nothing more. *)
Theorem removals_compose (i j : string) (w : World) :
  files (ui (removeFile i (removeFile j w)))
  = files (ui (removeFile j (removeFile i w)))
  ∧ files (ui (removeFile i (removeFile i w))) = files (ui (removeFile i w)).
Proof.
  rewrite !files_removeFile, !list_filter_filter. split.
  - apply list_filter_iff. tauto.
  - apply list_filter_iff. tauto.
Qed.

(** X18. Dropping one file and removing it again gives back the staging
    set, provided there was room for it and no staged file had its
    identifier. *)
Theorem drop_then_remove_restores (f : File) (w : World) :
  length (files (ui w)) < 25 ->
  file_id f ∉ id <$> files (ui w) ->
  files (ui (removeFile (file_id f) (onDrop [f] w))) = files (ui w).
Proof.
  intros Hroom Hnew.
  rewrite files_removeFile, files_onDrop.
  rewrite take_ge by (rewrite length_app; cbn; lia).
  rewrite filter_app. cbn [stage].
  rewrite filter_cons_False, filter_nil, app_nil_r by (cbn; tauto).
  apply filter_all, Forall_forall. intros x Hx Heq.
  apply Hnew. rewrite <- Heq. by apply list_elem_of_fmap_2.
Qed.

(** X19. A drop that brings no accepted file, after any history: the
    staging set is as it was, yet the job, the render id and status, the
    download location and both error texts are reset, and the preview URL of
    every staged file is revoked. The poll timer, [pollRef] and the requests
    in flight are not touched. *)
Theorem empty_drop_still_resets (evs : list Event) :
  files (ui (onDrop [] (run evs init))) = files (ui (run evs init))
  ∧ job (ui (onDrop [] (run evs init))) = Js.Null
  ∧ renderId (ui (onDrop [] (run evs init))) = Js.Null
  ∧ renderStatus (ui (onDrop [] (run evs init))) = Js.Null
  ∧ downloadUrl (ui (onDrop [] (run evs init))) = ""
  ∧ uploadError (ui (onDrop [] (run evs init))) = ""
  ∧ renderErr (ui (onDrop [] (run evs init))) = Js.Str ""
  ∧ url_revoked (browser (onDrop [] (run evs init)))
    = reverse (previewUrl <$> files (ui (run evs init)))
      ++ url_revoked (browser (run evs init))
  ∧ timers (browser (onDrop [] (run evs init))) = timers (browser (run evs init))
  ∧ pollRef (onDrop [] (run evs init)) = pollRef (run evs init)
  ∧ net (onDrop [] (run evs init)) = net (run evs init).
Proof.
  pose proof (cap_run evs) as Hcap.
  split.
  - rewrite files_onDrop. cbn [stage]. by rewrite app_nil_r, take_ge.
  - repeat split; try (handlers; frames; done).
    handlers. by rewrite revokeAll_revoked.
Qed.

(** ** After the component is gone *)

Lemma unmounted_step (ev : Event) (w : World) :
  mounted w = false ->
  ui (step ev w) = ui w
  ∧ mounted (step ev w) = false
  ∧ url_revoked (browser (step ev w)) = url_revoked (browser w).
Proof.
  intros Hm.
  destruct ev; handlers; rewrite ?Hm; cbn [andb]; branches; by simplify_eq.
Qed.

(** X20. Once the component is unmounted nothing reaches the page any
    more: whatever events follow (late answers to the upload, the render start
    or a status fetch, clicks, drops), the exposed state stays exactly as it
    was, the page stays unmounted and no further URL is revoked. *)
Theorem unmounted_page_is_frozen (w : World) (evs : list Event) :
  mounted w = false ->
  ui (run evs w) = ui w
  ∧ mounted (run evs w) = false
  ∧ url_revoked (browser (run evs w)) = url_revoked (browser w).
Proof.
  revert w. induction evs as [|ev evs IH]; intros w Hm; [done|].
  rewrite run_cons.
  destruct (unmounted_step ev w Hm) as (Hui & Hm' & Hlog).
  destruct (IH _ Hm') as (-> & -> & ->). done.
Qed.

(** ** The job check of the earlier page *)

(** X21. [checkJob]: without a truthy [job_id] it asks nothing. Otherwise
    the alert is [Could not fetch job details.] for every failure alike
    (network failure, a status outside 200..299, a body that is not JSON) and
    [getJob]'s own [Job not found] is never shown; any other text means the
    server answered in 200..299 with a JSON object whose [files] is an array,
    and the text then starts with the job id and the number of files. *)
Theorem checkJob_alert (job : Js.value) (res : Http) :
  (Js.truthy (Js.get_opt job "job_id") = false -> checkJob job = None)
  ∧ (forall message, checkJob_settled (getJob (NetworkError message)) = checkJob_failed)
  ∧ (forall status body,
       Api.ok status = false ->
       checkJob_settled (getJob (Response status body)) = checkJob_failed)
  ∧ (forall status message,
       checkJob_settled (getJob (Response status (NotJson message))) = checkJob_failed)
  ∧ (checkJob_settled (getJob res) ≠ checkJob_failed ->
     exists status props names,
       res = Response status (Json (Js.Obj props))
       ∧ Api.ok status = true
       ∧ Js.own "files" props = Js.Arr names
       ∧ checkJob_settled (getJob res)
         = "Job " +:+ Js.to_string (Js.own "job_id" props) +:+ " has "
           +:+ pretty (Z.of_nat (length names)) +:+ " files:" +:+ newline
           +:+ array_join newline names).
Proof.
  split; [|split; [|split; [|split]]].
  - intros Hjob. unfold checkJob. by rewrite Hjob.
  - done.
  - intros status body Hok. unfold getJob, Api.fetch_json. by rewrite Hok.
  - intros status message. unfold getJob, Api.fetch_json.
    by destruct (Api.ok status).
  - unfold getJob, Api.fetch_json.
    destruct res as [m|status [j|m]]; cbn; [done| |by destruct (Api.ok status)].
    destruct (Api.ok status) eqn:Hok; [|done].
    destruct j as [| | | | | | |props]; cbn; try done.
    destruct (Js.own "files" props) as [| | | | | |names|] eqn:Hfiles; try done.
    destruct (Js.prints (Js.own "job_id" props) && forallb Js.prints names);
      [|done].
    intros _. by exists status, props, names.
Qed.

(** ** What is shown of the errors *)

Lemma error_after_upload_step (ev : Event) (w : World) :
  single_upload w -> upload_discipline w ->
  error_after_upload w -> error_after_upload (step ev w).
Proof.
  unfold single_upload, upload_discipline, error_after_upload.
  intros (Hle & _ & _) (Herr & _ & _) Hw.
  assert (upload_inflight (net w) = 0 ∨ upload_inflight (net w) = 1) as E by lia.
  destruct ev; handlers; frames; branches; frames;
    repeat match goal with
           | H : (_ =? _)%nat = false |- _ => apply Nat.eqb_neq in H
           end;
    try done;
    intros Hne;
    try (destruct E as [E|E]; [lia | exfalso; by apply Hne, Herr]).
Qed.

Lemma error_after_upload_run (evs : list Event) :
  error_after_upload (run evs init).
Proof.
  apply (run_invariant
           (fun w => (single_upload w ∧ upload_discipline w) ∧ error_after_upload w)).
  - split; [apply (upload_invariants_run [])|]. by intros Hne.
  - intros ev w [[Hs Hd] He]. split; [split|].
    + by apply single_upload_step.
    + by apply upload_discipline_step.
    + by apply error_after_upload_step.
Qed.

(** X22. The upload error text is never on show. After any history,
    whenever [uploadError] is not empty the upload is over and the progress is
    0, and the block that would render the text shows only while uploading or
    with a progress above 0: in every state the page settles in, the text is
    hidden. *)
Theorem upload_error_is_never_shown (evs : list Event) :
  upload_error_shown (ui (run evs init)) = false.
Proof.
  pose proof (error_after_upload_run evs) as Hw.
  unfold error_after_upload in Hw.
  unfold upload_error_shown, upload_block_shown.
  destruct (String.eqb_spec (uploadError (ui (run evs init))) "") as [E|E].
  - by rewrite andb_false_r.
  - destruct (Hw E) as [-> ->]. by rewrite andb_false_r.
Qed.

(** X23. A render start that fails on a page that shows no render status
    yet (the first attempt): the error text is set, and it is not rendered,
    since the render block needs a status to show. *)
Theorem first_render_start_failure_is_hidden
    (w : World) (k : nat) (q : Js.value) (res : Http) (message : string) :
  mounted w = true ->
  start_inflight (net w) !! k = Some q ->
  Api.startRender res = Rejected message ->
  renderStatus (ui w) = Js.Null ->
  Js.truthy (renderErr (ui (step (StartSettled k res) w))) = true
  ∧ render_error_shown (ui (step (StartSettled k res) w)) = false.
Proof.
  intros Hm Hq Hres Hnull.
  rewrite (step_StartSettled k _ w q Hq), Hres.
  unfold render_error_shown, render_block_shown.
  assert (renderStatus
            (ui ((start_done k
                  >>> detached (handleStartRender_settled (Rejected message))) w))
          = Js.Null) as ->
    by (handlers; by rewrite Hm).
  split; [|by rewrite andb_false_r].
  handlers. rewrite Hm. projections. cbn [Js.truthy].
  apply negb_true_iff, String.eqb_neq. by apply str_or_not_empty.
Qed.

End Component.

(** C6, the claim as it was written, at a concrete page. A render of
    [photo] is running. The clear action is not available there; run all the
    same, [clearAll] leaves the timer of the poll loop live. It becomes
    available when a second photo is dropped, which resets the render status:
    the clear that follows empties the staging set, the timer is still live,
    and its next tick sends another status fetch. *)
Lemma clear_does_not_cancel_poll :
  step None engine_message Clear (run None engine_message (render_running photo) init)
  = run None engine_message (render_running photo) init
  ∧ files (ui (run None engine_message (render_running photo) init)) ≠ []
  ∧ timers (browser (clearAll (run None engine_message (render_running photo) init)))
      !! 1%positive
    = Some {| period := 500; target := Js.Str "r1" |}
  ∧ files (ui (run None engine_message
                 (render_running photo ++ [Drop [other_photo]; Clear]) init)) = []
  ∧ timers (browser (run None engine_message
                       (render_running photo ++ [Drop [other_photo]; Clear]) init))
      !! 1%positive
    = Some {| period := 500; target := Js.Str "r1" |}
  ∧ poll_inflight (net (run None engine_message
                          (render_running photo ++ [Drop [other_photo]; Clear; Tick 1])
                          init))
    = [Js.Str "r1"].
Proof. repeat split; try reflexivity. discriminate. Qed.


(** C8, the claim as it was written, at a concrete answer. A render of
    [photo] shows [processing], 40 percent, when a status fetch is answered
    200 with the body [{}]. The answer is applied: the status shown becomes
    [undefined] and the progress 0, with the timer still live. The same
    happens when the body is the JSON string [oops]. *)
Lemma poll_answer_without_fields_is_applied :
  renderStatus
    (ui (run None engine_message
           (render_running photo
            ++ [Tick 1; PollSettled 0 (status_is "processing" 40); Tick 1]) init))
  = Js.Str "processing"
  ∧ renderPct
      (ui (run None engine_message
             (render_running photo
              ++ [Tick 1; PollSettled 0 (status_is "processing" 40); Tick 1]) init))
    = Js.Num 40
  ∧ renderStatus
      (ui (run None engine_message
             (render_running photo
              ++ [Tick 1; PollSettled 0 (status_is "processing" 40); Tick 1;
                  PollSettled 0 status_empty]) init))
    = Js.Undefined
  ∧ renderPct
      (ui (run None engine_message
             (render_running photo
              ++ [Tick 1; PollSettled 0 (status_is "processing" 40); Tick 1;
                  PollSettled 0 status_empty]) init))
    = Js.Num 0
  ∧ timers
      (browser (run None engine_message
                  (render_running photo
                   ++ [Tick 1; PollSettled 0 (status_is "processing" 40); Tick 1;
                       PollSettled 0 status_empty]) init)) !! 1%positive
    = Some {| period := 500; target := Js.Str "r1" |}
  ∧ renderStatus
      (ui (run None engine_message
             (render_running photo
              ++ [Tick 1; PollSettled 0 (status_is "processing" 40); Tick 1;
                  PollSettled 0 (Response 200 (Json (Js.Str "oops")))]) init))
    = Js.Undefined
  ∧ renderPct
      (ui (run None engine_message
             (render_running photo
              ++ [Tick 1; PollSettled 0 (status_is "processing" 40); Tick 1;
                  PollSettled 0 (Response 200 (Json (Js.Str "oops")))]) init))
    = Js.Num 0.
Proof. repeat split; reflexivity. Qed.

(** ** The theorems at concrete inputs *)


(** The answer [done] to the first status fetch of a render leaves no timer. *)
Lemma poll_timer_lifecycle_example :
  timers (browser (step None engine_message
                     (PollSettled 0 (status_done 100 "/dl/x.mp4"))
                     (run None engine_message (render_running photo ++ [Tick 1]) init)))
  = ∅.
Proof.
  pose proof (proj1 (proj2 (proj2
    (poll_timer_lifecycle None engine_message
       (render_running photo ++ [Tick 1]))))
    0 (status_done 100 "/dl/x.mp4") (Js.Str "r1") eq_refl) as H.
  exact (proj1 H).
Defined.

(** A status fetch that the network drops leaves the exposed state alone. *)
Lemma poll_failure_is_swallowed_example :
  ui (step None engine_message (PollSettled 0 (NetworkError "Failed to fetch"))
        (run None engine_message (render_running photo ++ [Tick 1]) init))
  = ui (run None engine_message (render_running photo ++ [Tick 1]) init).
Proof.
  refine (proj1 (proj1
    (poll_failure_is_swallowed None engine_message
       (run None engine_message (render_running photo ++ [Tick 1]) init)
       0 (NetworkError "Failed to fetch") (Js.Str "r1") _ _))).
  - reflexivity.
  - reflexivity.
Defined.

(** With no [VITE_API_URL] the location is qualified by the default base. *)
Lemma download_location_is_qualified_example :
  downloadUrl
    (ui (poll_settled None
           (Fulfilled (Js.Obj [("status", Js.Str "done"); ("progress", Js.Num 100);
                               ("download_url", Js.Str "/dl/x.mp4")]))
           init))
  = "http://localhost:8000/dl/x.mp4".
Proof.
  refine (proj1
    (download_location_is_qualified None engine_message init
       (Js.Obj [("status", Js.Str "done"); ("progress", Js.Num 100);
                ("download_url", Js.Str "/dl/x.mp4")])
       "/dl/x.mp4" _ _)).
  - reflexivity.
  - discriminate.
Defined.

(** One staged photo, nothing running: Clear empties the staging set. *)
Lemma clear_returns_to_idle_example :
  files (ui (step None engine_message Clear
               (run None engine_message [Drop [photo]] init))) = [].
Proof.
  refine (proj1 (proj1 (proj2
    (clear_returns_to_idle None engine_message
       (run None engine_message [Drop [photo]] init) [Drop [photo]])) _ _)).
  - reflexivity.
  - reflexivity.
Defined.

(** Two photos with the same name, size and modification time: removing the
    first by its identifier removes both. *)
Lemma removeFile_removes_every_match_twins :
  ({| file := photo; previewUrl := 0; id := file_id photo |}
     ∉ files (ui (removeFile (file_id photo)
                    (run None engine_message [Drop [photo; photo_twin]] init))))
  ∧ ({| file := photo_twin; previewUrl := 1; id := file_id photo_twin |}
       ∉ files (ui (removeFile (file_id photo)
                      (run None engine_message [Drop [photo; photo_twin]] init)))).
Proof.
  pose proof (removeFile_removes_every_match None engine_message
                [Drop [photo; photo_twin]] (file_id photo))
    as (_ & _ & _ & _ & Htwins).
  refine (proj2 (Htwins
    {| file := photo; previewUrl := 0; id := file_id photo |}
    {| file := photo_twin; previewUrl := 1; id := file_id photo_twin |}
    _ _ _ _ _)).
  - apply list_elem_of_here.
  - apply list_elem_of_further, list_elem_of_here.
  - reflexivity.
  - reflexivity.
  - reflexivity.
Defined.

(** ** The further properties at concrete inputs *)

(** An upload of one photo is in flight: the flag is set. *)
Lemma upload_is_single_flight_example :
  isUploading
    (ui (run None engine_message
           [HealthSettled health_ok; Drop [photo]; ClickUpload] init)) = true.
Proof.
  refine (proj1 (proj2
    (upload_is_single_flight None engine_message
       [HealthSettled health_ok; Drop [photo]; ClickUpload])) _ _).
  - reflexivity.
  - reflexivity.
Defined.

(** The running upload is answered 200 with a job. *)
Lemma upload_success_records_job_example :
  job (ui (step None engine_message (UploadLoad 200 upload_ok)
             (run None engine_message
                [HealthSettled health_ok; Drop [photo]; ClickUpload] init)))
  = upload_ok.
Proof.
  refine (proj1
    (upload_success_records_job None engine_message
       [HealthSettled health_ok; Drop [photo]; ClickUpload] 200 upload_ok _ _ _)).
  - reflexivity.
  - vm_compute. lia.
  - reflexivity.
Defined.

(** A 422 whose [detail] is an empty array, which prints as the empty
    string. *)
Lemma upload_failure_always_shows_text_example :
  uploadError
    (ui (step None engine_message
           (UploadLoad 422 (Js.Obj [("detail", Js.Arr [])]))
           (run None engine_message
              [HealthSettled health_ok; Drop [photo]; ClickUpload] init)))
  ≠ "".
Proof.
  refine (proj1 (proj1
    (upload_failure_always_shows_text None engine_message
       (run None engine_message
          [HealthSettled health_ok; Drop [photo]; ClickUpload] init)
       422 (Js.Obj [("detail", Js.Arr [])]) _ _ _) _)).
  - reflexivity.
  - vm_compute. lia.
  - reflexivity.
  - reflexivity.
Defined.

(** The running upload was started on a page that saw the API online. *)
Lemma upload_needs_api_online_example :
  apiOnline
    (ui (run None engine_message
           [HealthSettled health_ok; Drop [photo]; ClickUpload] init))
  = Some true.
Proof.
  refine (proj1
    (upload_needs_api_online None engine_message
       [HealthSettled health_ok; Drop [photo]; ClickUpload] init) _).
  vm_compute. lia.
Defined.

(** One photo staged, the API online: a click on Upload sends one request. *)
Lemma upload_click_sends_staged_files_example :
  upload_inflight
    (net (step None engine_message ClickUpload
            (run None engine_message [HealthSettled health_ok; Drop [photo]] init)))
  = 1.
Proof.
  refine (proj1
    (upload_click_sends_staged_files None engine_message
       [HealthSettled health_ok; Drop [photo]] _ _)).
  - reflexivity.
  - reflexivity.
Defined.

(** The first answer to the ping, [{"status":"ok"}] with status 200. *)
Lemma health_answer_sets_badge_example :
  apiOnline (ui (step None engine_message (HealthSettled health_ok) init))
  = Some true.
Proof.
  refine (proj1 (health_answer_sets_badge None engine_message init health_ok _ _)).
  - reflexivity.
  - reflexivity.
Defined.

(** The ping failed: a drop and a click on Upload later the API is still
    offline. *)
Lemma health_is_checked_once_example :
  apiOnline
    (ui (run None engine_message [Drop [photo]; ClickUpload]
           (step None engine_message (HealthSettled (NetworkError "Failed to fetch"))
              init)))
  = Some false.
Proof.
  refine (proj1
    (health_is_checked_once None engine_message
       (step None engine_message (HealthSettled (NetworkError "Failed to fetch")) init)
       [Drop [photo]; ClickUpload] _)).
  reflexivity.
Defined.

(** The fresh page has no job. *)
Lemma render_start_needs_job_example :
  step None engine_message ClickStartRender init = init.
Proof.
  refine (proj2 (render_start_needs_job None engine_message [] init) _).
  reflexivity.
Defined.

(** A render start answered with 500. *)
Lemma render_start_failure_is_shown_example :
  renderErr
    (ui (step None engine_message
           (StartSettled 0 (Response 500 (NotJson "Unexpected token")))
           (run None engine_message
              [HealthSettled health_ok; Drop [photo]; ClickUpload;
               UploadLoad 200 upload_ok; ClickStartRender] init)))
  = Js.Str "Render start failed".
Proof.
  refine (proj1
    (render_start_failure_is_shown None engine_message
       (run None engine_message
          [HealthSettled health_ok; Drop [photo]; ClickUpload;
           UploadLoad 200 upload_ok; ClickStartRender] init)
       0 (Js.Str "j1") 500 (NotJson "Unexpected token") "Failed to fetch" _ _ _)).
  - reflexivity.
  - reflexivity.
  - reflexivity.
Defined.

(** A render start answered with [{"render_id":"r1","status":"queued"}]. *)
Lemma render_start_success_sets_status_example :
  renderId
    (ui (step None engine_message (StartSettled 0 (render_started "r1"))
           (run None engine_message
              [HealthSettled health_ok; Drop [photo]; ClickUpload;
               UploadLoad 200 upload_ok; ClickStartRender] init)))
  = Js.Str "r1".
Proof.
  refine (proj1
    (render_start_success_sets_status None engine_message
       (run None engine_message
          [HealthSettled health_ok; Drop [photo]; ClickUpload;
           UploadLoad 200 upload_ok; ClickStartRender] init)
       0 (Js.Str "j1")
       (Js.Obj [("render_id", Js.Str "r1"); ("status", Js.Str "queued")])
       (Js.Str "r1") (render_started "r1") _ _ _ _)).
  - reflexivity.
  - reflexivity.
  - reflexivity.
  - reflexivity.
Defined.

(** A render is queued: Clear changes nothing. *)
Lemma busy_page_refuses_edits_example :
  step None engine_message Clear
    (run None engine_message (render_running photo) init)
  = run None engine_message (render_running photo) init.
Proof.
  refine (proj1 (proj1
    (busy_page_refuses_edits None engine_message
       (run None engine_message (render_running photo) init) "a.png-1024-1700000000000")
    _)).
  reflexivity.
Defined.

(** The answer [{}]: the status shown becomes [undefined]. *)
Lemma poll_answer_applied_by_field_example :
  renderStatus (ui (poll_settled None (Fulfilled (Js.Obj [])) init)) = Js.Undefined.
Proof.
  refine (proj1
    (poll_answer_applied_by_field None init (Js.Obj []) Js.Undefined _)).
  reflexivity.
Defined.

(** Two photos dropped one after the other, then cleared. *)
Lemma no_preview_url_leaks_within_cap_example :
  outstanding
    (run None engine_message [Drop [photo]; Drop [other_photo]; Clear] init)
  = [].
Proof.
  refine (proj1 (proj2
    (no_preview_url_leaks_within_cap None engine_message
       [Drop [photo]; Drop [other_photo]; Clear] _)) _).
  - reflexivity.
  - reflexivity.
Defined.

(** [other_photo] dropped next to [photo] and removed again. *)
Lemma drop_then_remove_restores_example :
  files (ui (removeFile (file_id other_photo)
               (onDrop [other_photo] (run None engine_message [Drop [photo]] init))))
  = files (ui (run None engine_message [Drop [photo]] init)).
Proof.
  refine (drop_then_remove_restores other_photo
            (run None engine_message [Drop [photo]] init) _ _).
  - vm_compute. lia.
  - intros Hin. apply list_elem_of_singleton in Hin. discriminate Hin.
Defined.

(** The page is unmounted while its upload runs; the answer changes nothing. *)
Lemma unmounted_page_is_frozen_example :
  ui (run None engine_message [UploadLoad 200 upload_ok]
        (run None engine_message
           [HealthSettled health_ok; Drop [photo]; ClickUpload; Unmount] init))
  = ui (run None engine_message
          [HealthSettled health_ok; Drop [photo]; ClickUpload; Unmount] init).
Proof.
  refine (proj1
    (unmounted_page_is_frozen None engine_message
       (run None engine_message
          [HealthSettled health_ok; Drop [photo]; ClickUpload; Unmount] init)
       [UploadLoad 200 upload_ok] _)).
  reflexivity.
Defined.

(** The server lists two files for the job. *)
Lemma checkJob_alert_example :
  exists status props names,
    Response 200 (Json (Js.Obj [("job_id", Js.Str "j1");
                                ("files", Js.Arr [Js.Str "a.png"; Js.Str "b.png"])]))
    = Response status (Json (Js.Obj props))
    ∧ Api.ok status = true
    ∧ Js.own "files" props = Js.Arr names
    ∧ checkJob_settled
        (getJob (Response 200 (Json (Js.Obj [("job_id", Js.Str "j1");
                                             ("files", Js.Arr [Js.Str "a.png"; Js.Str "b.png"])]))))
      = "Job " +:+ Js.to_string (Js.own "job_id" props) +:+ " has "
        +:+ pretty (Z.of_nat (length names)) +:+ " files:" +:+ newline
        +:+ array_join newline names.
Proof.
  refine (proj2 (proj2 (proj2 (proj2
    (checkJob_alert Js.Null
       (Response 200 (Json (Js.Obj [("job_id", Js.Str "j1");
                                    ("files", Js.Arr [Js.Str "a.png"; Js.Str "b.png"])]))))))) _).
  vm_compute. discriminate.
Defined.

(** The first render start of a page is answered with 500. *)
Lemma first_render_start_failure_is_hidden_example :
  render_error_shown
    (ui (step None engine_message
           (StartSettled 0 (Response 500 (Json Js.Null)))
           (run None engine_message
              [HealthSettled health_ok; Drop [photo]; ClickUpload;
               UploadLoad 200 upload_ok; ClickStartRender] init)))
  = false.
Proof.
  refine (proj2
    (first_render_start_failure_is_hidden None engine_message
       (run None engine_message
          [HealthSettled health_ok; Drop [photo]; ClickUpload;
           UploadLoad 200 upload_ok; ClickStartRender] init)
       0 (Js.Str "j1") (Response 500 (Json Js.Null)) "Render start failed"
       _ _ _ _)).
  - reflexivity.
  - reflexivity.
  - reflexivity.
  - reflexivity.
Defined.
